(** * The transaction-entry form of moolah

    A shallow embedding of
    [src/app/(application)/transactions/_components/TransactionForm.tsx]:
    the zod schema [formSchema] together with the resolver that turns its
    issues into per-field errors, the default values of the form, the
    effect that fetches the accounts and preselects the default one, the
    submit handler [onSubmit], the expense/income buttons and the
    [disabled] predicate of the date picker.

    JavaScript values are modelled by the inductive type [Value]; numbers
    are IEEE 754 values without payload ([spec_float]); a [Date] is its
    time value, an integral number of milliseconds since the epoch or NaN
    (here [None]).  The observable effects of the component (toasts,
    console output, the remote calls, the close callback) are recorded in
    order in a trace that is part of the component state. *)

From Stdlib Require Import ZArith Bool List String.
From Stdlib Require Import Floats.SpecFloat.
From stdpp Require Import base option list strings gmap.

Local Open Scope string_scope.

(** ** JavaScript values *)

Definition Number : Type := spec_float.

(** The time value of a [Date] object: [None] is the NaN of an invalid
    date. *)
Definition Date : Type := option Z.

Inductive Value : Type :=
| VUndefined
| VNull
| VBoolean (b : bool)
| VNumber (x : Number)
| VString (s : string)
| VDate (d : Date).

Definition zero : Number := S754_zero false.
Definition Infinity : Number := S754_infinity false.
Definition NaN : Number := S754_nan.

Definition isNaN (x : Number) : bool :=
  match x with S754_nan => true | _ => false end.

Definition isFinite (x : Number) : bool :=
  match x with
  | S754_zero _ | S754_finite _ _ _ => true
  | S754_infinity _ | S754_nan => false
  end.

(** [x <= y] and [x > y] on numbers; every comparison with NaN is false. *)
Definition num_le (x y : Number) : bool := SFleb x y.
Definition num_gt (x y : Number) : bool := SFltb y x.

(** Truthiness, as used by [||], [if] and [?:]. *)
Definition truthy (v : Value) : bool :=
  match v with
  | VUndefined | VNull => false
  | VBoolean b => b
  | VNumber x =>
      match x with
      | S754_zero _ | S754_nan => false
      | _ => true
      end
  | VString s => negb (String.eqb s "")
  | VDate _ => true
  end.

Definition truthy_string (s : string) : bool := negb (String.eqb s "").

(** ** The part of zod the schema uses

    [z.string().min(1)], [z.enum([...])], [z.date()],
    [z.number().positive()] and [z.string().optional()].  A schema parses a
    value to a typed result or reports issues. *)

Inductive ZodParsedType : Type :=
| zt_undefined | zt_null | zt_boolean | zt_number | zt_nan | zt_string
| zt_date.

Definition getParsedType (v : Value) : ZodParsedType :=
  match v with
  | VUndefined => zt_undefined
  | VNull => zt_null
  | VBoolean _ => zt_boolean
  | VNumber x => if isNaN x then zt_nan else zt_number
  | VString _ => zt_string
  | VDate _ => zt_date
  end.

Inductive ZodIssueCode : Type :=
| invalid_type (received : ZodParsedType)
| invalid_enum_value
| invalid_date
| too_small.

Inductive ParseReturn (T : Type) : Type :=
| OK (value : T)
| INVALID (issues : list ZodIssueCode).
Arguments OK {T} value.
Arguments INVALID {T} issues.

Definition ZodType (T : Type) : Type := Value -> ParseReturn T.

Module z.

Definition string : ZodType String.string := fun v =>
  match v with
  | VString s => OK s
  | _ => INVALID [invalid_type (getParsedType v)]
  end.

(** [.min(n)] on a string schema: the length is at least [n]. *)
Definition min (n : nat) (inner : ZodType String.string)
  : ZodType String.string := fun v =>
  match inner v with
  | OK s => if Nat.ltb (String.length s) n then INVALID [too_small] else OK s
  | INVALID issues => INVALID issues
  end.

Definition enum (values : list String.string) : ZodType String.string :=
  fun v =>
  match v with
  | VString s =>
      if existsb (String.eqb s) values then OK s
      else INVALID [invalid_enum_value]
  | _ => INVALID [invalid_type (getParsedType v)]
  end.

Definition date : ZodType Z := fun v =>
  match v with
  | VDate (Some t) => OK t
  | VDate None => INVALID [invalid_date]
  | _ => INVALID [invalid_type (getParsedType v)]
  end.

(** [z.number()] accepts every value of type number except NaN; it has no
    finiteness check of its own. *)
Definition number : ZodType Number := fun v =>
  match v with
  | VNumber x =>
      if isNaN x then INVALID [invalid_type zt_nan] else OK x
  | _ => INVALID [invalid_type (getParsedType v)]
  end.

(** [.positive()] is the exclusive minimum 0: the issue is raised when
    [x <= 0]. *)
Definition positive (inner : ZodType Number) : ZodType Number := fun v =>
  match inner v with
  | OK x => if num_le x zero then INVALID [too_small] else OK x
  | INVALID issues => INVALID issues
  end.

Definition optional {T} (inner : ZodType T) : ZodType (option T) := fun v =>
  match v with
  | VUndefined => OK None
  | _ =>
      match inner v with
      | OK x => OK (Some x)
      | INVALID issues => INVALID issues
      end
  end.

End z.

(** ** The form values and [formSchema] *)

(** The values held by the form, one per registered field.  They are what
    the inputs put there, whatever the static type says: the amount input
    stores the result of [parseFloat], the date picker may store
    [undefined]. *)
Record FieldValues : Type := mkFieldValues {
  account : Value;
  type : Value;
  description : Value;
  category : Value;
  date : Value;
  amount : Value;
  notes : Value;
}.

(** [z.infer<typeof formSchema>], the output of a successful parse. *)
Module Parsed.
Record t : Type := mk {
  account : string;
  type : string;
  description : string;
  category : string;
  date : Z;
  amount : Number;
  notes : option string;
}.
End Parsed.

(** An issue with its path, the key of the object schema it was raised
    under. *)
Definition ZodIssue : Type := (string * ZodIssueCode)%type.

Definition at_path {T} (key : string) (r : ParseReturn T) : list ZodIssue :=
  match r with
  | OK _ => []
  | INVALID issues => map (pair key) issues
  end.

Definition s_account := z.min 1 z.string.
Definition s_type := z.enum ["expense"; "income"].
Definition s_description := z.min 1 z.string.
Definition s_category := z.min 1 z.string.
Definition s_date := z.date.
Definition s_amount := z.positive z.number.
Definition s_notes := z.optional z.string.

(** [z.object({...})]: every key is parsed, in the order of the shape, and
    the issues of all keys are collected. *)
Definition formSchema (data : FieldValues) : Parsed.t + list ZodIssue :=
  match s_account (account data), s_type (type data),
        s_description (description data), s_category (category data),
        s_date (date data), s_amount (amount data), s_notes (notes data) with
  | OK a, OK ty, OK de, OK c, OK da, OK am, OK n =>
      inl (Parsed.mk a ty de c da am n)
  | ra, rty, rde, rc, rda, ram, rn =>
      inr (at_path "account" ra ++ at_path "type" rty
           ++ at_path "description" rde ++ at_path "category" rc
           ++ at_path "date" rda ++ at_path "amount" ram
           ++ at_path "notes" rn)%list
  end.

(** ** The resolver *)

(** The entry of a field in [formState.errors]: the code of the first
    issue raised for it. *)
Record FieldError : Type := mkFieldError { error_type : ZodIssueCode }.

(** [parseErrorSchema]: the first issue of each path is kept. *)
Fixpoint parseErrorSchema (zodErrors : list ZodIssue)
  (errors : gmap string FieldError) : gmap string FieldError :=
  match zodErrors with
  | [] => errors
  | (path, code) :: rest =>
      match errors !! path with
      | Some _ => parseErrorSchema rest errors
      | None => parseErrorSchema rest (<[path := mkFieldError code]> errors)
      end
  end.

Record ResolverResult : Type := mkResolverResult {
  values : option Parsed.t;
  errors : gmap string FieldError;
}.

Definition zodResolver (data : FieldValues) : ResolverResult :=
  match formSchema data with
  | inl v => mkResolverResult (Some v) ∅
  | inr issues => mkResolverResult None (parseErrorSchema issues ∅)
  end.

(** [validate()] of the specification: valid when the resolver reports no
    error. *)
Definition validate (data : FieldValues) : bool * gmap string FieldError :=
  let r := zodResolver data in
  (bool_decide (errors r = ∅), errors r).

(** ** Collaborators *)

(** Modelled from the spec: the [Account] projection returned by
    [getAllUserAccountsByUserId], which the component imports from
    [@/lib/api/accounts] ([{id: string, name: string, isDefault: bool}]). *)
Record Account : Type := mkAccount {
  id : string;
  name : string;
  isDefault : bool;
}.

(** Modelled from the spec: the persisted transaction handed over as
    [initialData] (the [Transaction] type of the generated ORM client),
    with the fields of the request shape under the names the component
    reads them by. *)
Module Transaction.
Record t : Type := mk {
  UserAccountId : string;
  type : string;
  description : string;
  category : string;
  date : Z;
  amount : Number;
  notes : option string;
}.
End Transaction.

(** The argument of [createTransaction]. *)
Module Request.
Record t : Type := mk {
  UserAccountId : string;
  type : string;
  description : string;
  category : string;
  date : Z;
  amount : Number;
  notes : option string;
}.
End Request.

(** The value [createTransaction] resolves with.  The specification gives
    it the shape [{success: bool, error?: string}]; nothing in the
    component checks that, so every value is taken: an object with its
    [success] and [error] properties ([undefined] when absent), or a value
    that has neither. *)
Inductive Response : Type :=
| NotAnObject (v : Value)
| ResponseObject (success error : Value).

(** A thrown value. *)
Definition Exn : Type := string.

(** The error thrown by a property access on [undefined] or [null]. *)
Definition TypeError : Exn := "TypeError".

(** ** Effects and component state *)

Inductive Effect : Type :=
| GetAllUserAccountsByUserId (userId : string)
| CreateTransaction (request : Request.t)
| ToastSuccess (message : string)
| ToastError (message : Value)
| RevalidatePath (path : string)
| CloseSheet
| ConsoleError (label : string) (thrown : Exn).

Inductive TransactionType : Type := expense | income.

Definition type_name (t : TransactionType) : string :=
  match t with expense => "expense" | income => "income" end.

(** The hooks of the component: the four [useState] cells, the form values
    and errors kept by [useForm], and the effects emitted so far, oldest
    first. *)
Module Component.
Record State : Type := mk {
  accounts : list Account;
  defaultAccount : option Account;
  showCalendar : bool;
  type : TransactionType;
  form : FieldValues;
  errors : gmap string FieldError;
  trace : list Effect;
}.
End Component.
Abbreviation State := Component.State.

(** Computations of the handlers: they update the state and either return
    or throw. *)
Definition M (A : Type) : Type := State -> (Exn + A) * State.

#[global] Instance M_ret : MRet M := fun A x st => (inr x, st).

#[global] Instance M_bind : MBind M := fun A B k m st =>
  match m st with
  | (inr x, st') => k x st'
  | (inl e, st') => (inl e, st')
  end.

Definition throw {A} (e : Exn) : M A := fun st => (inl e, st).

(** [try { body } catch (error) { handler }] *)
Definition try_catch {A} (body : M A) (handler : Exn -> M A) : M A :=
  fun st =>
  match body st with
  | (inr x, st') => (inr x, st')
  | (inl e, st') => handler e st'
  end.

(** [await] of a call whose outcome is known: a rejected promise throws
    at the [await]. *)
Definition await {A} (outcome : Exn + A) : M A :=
  match outcome with
  | inl e => throw e
  | inr x => mret x
  end.

Definition emit (e : Effect) : M unit := fun st =>
  (inr tt,
   Component.mk (Component.accounts st) (Component.defaultAccount st)
     (Component.showCalendar st) (Component.type st) (Component.form st)
     (Component.errors st) (Component.trace st ++ [e])).

Definition setAccounts (l : list Account) : M unit := fun st =>
  (inr tt,
   Component.mk l (Component.defaultAccount st)
     (Component.showCalendar st) (Component.type st) (Component.form st)
     (Component.errors st) (Component.trace st)).

Definition setDefaultAccount (a : option Account) : M unit := fun st =>
  (inr tt,
   Component.mk (Component.accounts st) a
     (Component.showCalendar st) (Component.type st) (Component.form st)
     (Component.errors st) (Component.trace st)).

Definition setShowCalendar (b : bool) : M unit := fun st =>
  (inr tt,
   Component.mk (Component.accounts st) (Component.defaultAccount st)
     b (Component.type st) (Component.form st)
     (Component.errors st) (Component.trace st)).

Definition setType (t : TransactionType) : M unit := fun st =>
  (inr tt,
   Component.mk (Component.accounts st) (Component.defaultAccount st)
     (Component.showCalendar st) t (Component.form st)
     (Component.errors st) (Component.trace st)).

Definition setErrors (errs : gmap string FieldError) : M unit := fun st =>
  (inr tt,
   Component.mk (Component.accounts st) (Component.defaultAccount st)
     (Component.showCalendar st) (Component.type st) (Component.form st)
     errs (Component.trace st)).

Definition getForm : M FieldValues := fun st => (inr (Component.form st), st).

(** The names of the registered fields. *)
Inductive FieldName : Type :=
| n_account | n_type | n_description | n_category | n_date | n_amount
| n_notes.

#[global] Instance FieldName_eq_dec : EqDecision FieldName.
Proof. solve_decision. Defined.

Definition key (n : FieldName) : string :=
  match n with
  | n_account => "account"
  | n_type => "type"
  | n_description => "description"
  | n_category => "category"
  | n_date => "date"
  | n_amount => "amount"
  | n_notes => "notes"
  end.

Definition get (n : FieldName) (d : FieldValues) : Value :=
  match n with
  | n_account => account d
  | n_type => type d
  | n_description => description d
  | n_category => category d
  | n_date => date d
  | n_amount => amount d
  | n_notes => notes d
  end.

Definition set (n : FieldName) (v : Value) (d : FieldValues) : FieldValues :=
  match n with
  | n_account =>
      mkFieldValues v (type d) (description d) (category d) (date d)
        (amount d) (notes d)
  | n_type =>
      mkFieldValues (account d) v (description d) (category d) (date d)
        (amount d) (notes d)
  | n_description =>
      mkFieldValues (account d) (type d) v (category d) (date d)
        (amount d) (notes d)
  | n_category =>
      mkFieldValues (account d) (type d) (description d) v (date d)
        (amount d) (notes d)
  | n_date =>
      mkFieldValues (account d) (type d) (description d) (category d) v
        (amount d) (notes d)
  | n_amount =>
      mkFieldValues (account d) (type d) (description d) (category d)
        (date d) v (notes d)
  | n_notes =>
      mkFieldValues (account d) (type d) (description d) (category d)
        (date d) (amount d) v
  end.

(** [form.setValue(name, value)], also what [field.onChange(value)] of the
    field [name] does. *)
Definition setValue (n : FieldName) (v : Value) : M unit := fun st =>
  (inr tt,
   Component.mk (Component.accounts st) (Component.defaultAccount st)
     (Component.showCalendar st) (Component.type st)
     (set n v (Component.form st))
     (Component.errors st) (Component.trace st)).

Module toast.
Definition success (message : string) : M unit := emit (ToastSuccess message).
Definition error (message : Value) : M unit := emit (ToastError message).
End toast.

Module console.
Definition error (label : string) (thrown : Exn) : M unit :=
  emit (ConsoleError label thrown).
End console.

Definition customRevalidatePath (path : string) : M unit :=
  emit (RevalidatePath path).

Definition closeSheetCallback : M unit := emit CloseSheet.

(** [response.success] and [response.error]: reading a property of
    [undefined] or [null] throws, of any other value without the property
    gives [undefined]. *)
Definition success (response : Response) : M Value :=
  match response with
  | NotAnObject VUndefined | NotAnObject VNull => throw TypeError
  | NotAnObject _ => mret VUndefined
  | ResponseObject s _ => mret s
  end.

Definition error (response : Response) : M Value :=
  match response with
  | NotAnObject VUndefined | NotAnObject VNull => throw TypeError
  | NotAnObject _ => mret VUndefined
  | ResponseObject _ e => mret e
  end.

(** ** Default values *)

(** [a || b] *)
Definition js_or (a b : Value) : Value := if truthy a then a else b.

(** [initialData?.field] *)
Definition opt_chain (initialData : option Transaction.t)
  (field : Transaction.t -> Value) : Value :=
  match initialData with
  | Some t => field t
  | None => VUndefined
  end.

Definition of_nullable (o : option string) : Value :=
  match o with Some s => VString s | None => VNull end.

(** The [defaultValues] of [useForm]; [now] is the time value of the
    [new Date()] evaluated when they are computed. *)
Definition defaultValues (now : Z) (initialData : option Transaction.t)
  : FieldValues :=
  {| account :=
       js_or (opt_chain initialData
                (fun t => VString (Transaction.UserAccountId t)))
             (VString "");
     type :=
       js_or (opt_chain initialData (fun t => VString (Transaction.type t)))
             (VString "expense");
     category :=
       js_or (opt_chain initialData
                (fun t => VString (Transaction.category t)))
             (VString "");
     description :=
       js_or (opt_chain initialData
                (fun t => VString (Transaction.description t)))
             (VString "");
     date := VDate (Some now);
     amount :=
       js_or (opt_chain initialData (fun t => VNumber (Transaction.amount t)))
             (VNumber zero);
     notes :=
       js_or (opt_chain initialData
                (fun t => of_nullable (Transaction.notes t)))
             (VString "") |}.

(** The state after the first render. *)
Definition mount (now : Z) (initialData : option Transaction.t) : State :=
  Component.mk [] None false expense (defaultValues now initialData) ∅ [].

(** ** Dates *)

Local Open Scope Z_scope.

Definition msPerDay : Z := 86400000.

(** Day number of the first day of year [y], relative to 1970-01-01. *)
Definition DayFromYear (y : Z) : Z :=
  365 * (y - 1970) + (y - 1969) / 4 - (y - 1901) / 100 + (y - 1601) / 400.

Definition InLeapYear (y : Z) : bool :=
  ((y mod 4 =? 0) && negb (y mod 100 =? 0)) || (y mod 400 =? 0).

Definition DaysInMonth (y m : Z) : Z :=
  if m =? 1 then (if InLeapYear y then 29 else 28)
  else if (m =? 3) || (m =? 5) || (m =? 8) || (m =? 10) then 30
  else 31.

(** Days of year [y] before its month [m] (0 is January). *)
Definition DaysBeforeMonth (y m : Z) : Z :=
  fold_left (fun acc k => acc + DaysInMonth y (Z.of_nat k))
    (seq 0 (Z.to_nat m)) 0.

Definition MakeDay (year month date : Z) : Z :=
  DayFromYear year + DaysBeforeMonth year month + date - 1.

Definition MakeDate (day time : Z) : Z := day * msPerDay + time.

Definition digit (c : Ascii.ascii) : option Z :=
  let n := Z.of_nat (Ascii.nat_of_ascii c) in
  if (48 <=? n) && (n <=? 57) then Some (n - 48) else None.

Fixpoint digits (s : string) (acc : Z) : option Z :=
  match s with
  | EmptyString => Some acc
  | String c rest =>
      match digit c with
      | Some d => digits rest (10 * acc + d)
      | None => None
      end
  end.

(** [new Date(s)] for a date-only string [YYYY-MM-DD]: midnight UTC of that
    day, or an invalid date. *)
Definition Date_parse (s : string) : Date :=
  if negb (Nat.eqb (String.length s) 10) then None
  else if negb (String.eqb (substring 4 1 s) "-"
                && String.eqb (substring 7 1 s) "-") then None
  else
    match digits (substring 0 4 s) 0, digits (substring 5 2 s) 0,
          digits (substring 8 2 s) 0 with
    | Some y, Some m, Some d =>
        if (1 <=? m) && (m <=? 12) && (1 <=? d) && (d <=? DaysInMonth y (m - 1))
        then Some (MakeDate (MakeDay y (m - 1) d) 0)
        else None
    | _, _, _ => None
    end.

(** Relational comparison of two dates: both are converted to their time
    values, and a comparison with NaN is false. *)
Definition date_gt (a b : Date) : bool :=
  match a, b with
  | Some x, Some y => y <? x
  | _, _ => false
  end.

Definition date_lt (a b : Date) : bool := date_gt b a.

(** The [disabled] matcher given to the calendar; [now] is the time value
    of the [new Date()] it evaluates. *)
Definition disabled (now : Z) (date : Date) : bool :=
  date_gt date (Some now) || date_lt date (Date_parse "1900-01-01").

Local Close Scope Z_scope.

(** ** The handlers of the component *)

Definition toRequest (values : Parsed.t) : Request.t :=
  {| Request.UserAccountId := Parsed.account values;
     Request.type := Parsed.type values;
     Request.description := Parsed.description values;
     Request.category := Parsed.category values;
     Request.date := Parsed.date values;
     Request.amount := Parsed.amount values;
     Request.notes := Parsed.notes values |}.

Section Handlers.

(** The two remote calls, as the outcome they settle with. *)
Variable getAllUserAccountsByUserId : string -> Exn + list Account.
Variable createTransaction : Request.t -> Exn + Response.

(** The category vocabularies of [@/lib/categories]. *)
Variables EXPENSE_CATEGORIES_KEYS INCOME_CATEGORIES_KEYS : list string.
Variables EXPENSE_CATEGORIES INCOME_CATEGORIES : gmap string string.

Definition fetchAccountsAndDefaultAccount (userId : string) : M unit :=
  try_catch
    (fetchedAccounts ←
       (emit (GetAllUserAccountsByUserId userId);;
        await (getAllUserAccountsByUserId userId));
     setAccounts fetchedAccounts;;
     let defaultAcc :=
       find (fun account => Bool.eqb (isDefault account) true)
         fetchedAccounts in
     setDefaultAccount defaultAcc;;
     setValue n_account
       (VString (match defaultAcc with Some a => id a | None => "" end)))
    (fun error => console.error "Error fetching accounts:" error).

(** The body of the effect that depends on [userId], the id of the
    session's user if there is one. *)
Definition accountsEffect (userId : option string) : M unit :=
  match userId with
  | Some u =>
      if truthy_string u then fetchAccountsAndDefaultAccount u else mret tt
  | None => mret tt
  end.

Definition onSubmit (values : Parsed.t) : M unit :=
  try_catch
    (response ←
       (emit (CreateTransaction (toRequest values));;
        await (createTransaction (toRequest values)));
     succeeded ← success response;
     if truthy succeeded then
       toast.success "Transaction created successfully";;
       customRevalidatePath "/transactions";;
       closeSheetCallback
     else
       message ← error response;
       if truthy message then toast.error message
       else toast.error (VString "Failed to create transaction!"))
    (fun error => console.error "Error submitting transaction:" error).

(** [form.handleSubmit(onValid)]: the resolver runs on the current
    values; its errors become the form's errors, and [onValid] is called
    with the parsed values only when there is none. *)
Definition handleSubmit (onValid : Parsed.t -> M unit) : M unit :=
  data ← getForm;
  let r := zodResolver data in
  setErrors (errors r);;
  match values r with
  | Some v => onValid v
  | None => mret tt
  end.

(** The [onClick] of the two buttons. *)
Definition onClickExpense : M unit :=
  setType expense;; setValue n_type (VString "expense").

Definition onClickIncome : M unit :=
  setType income;; setValue n_type (VString "income").

(** The items of the category [Select]: value and label. *)
Definition categoryItems (st : State) : list (string * option string) :=
  map (fun category =>
         (category,
          (match Component.type st with
           | expense => EXPENSE_CATEGORIES
           | income => INCOME_CATEGORIES
           end) !! category))
    (match Component.type st with
     | expense => EXPENSE_CATEGORIES_KEYS
     | income => INCOME_CATEGORIES_KEYS
     end).

(** The values that can be chosen in the category [Select]. *)
Definition selectableCategories (st : State) : list string :=
  map fst (categoryItems st).

(** The [onSelect] of the calendar. *)
Definition onSelect (date : Value) : M unit :=
  setValue n_date date;; setShowCalendar false.

(** A click on a day of the calendar, in single-selection mode: a
    disabled day cannot be clicked; a click on the day the picker shows
    as selected clears the selection. *)
Definition onDayClick (now : Z) (day : Z) (selected : bool) : M unit :=
  if disabled now (Some day) then mret tt
  else if selected then onSelect VUndefined
  else onSelect (VDate (Some day)).

(** The [onChange] of the amount input; [parsed] is the result of
    [parseFloat(e.target.value)]. *)
Definition onChangeAmount (parsed : Number) : M unit :=
  setValue n_amount (VNumber parsed).

End Handlers.

(** ** The form as a transition system *)

(** What can happen to a mounted form.  The remote calls settle as the
    event says; [DayClick] carries the clock reading of the render the
    calendar was drawn in. *)
Inductive Event : Type :=
| AccountsEffect (userId : option string)
    (getAllUserAccountsByUserId : string -> Exn + list Account)
| ClickExpense
| ClickIncome
| ChangeDescription (s : string)
| ChangeCategory (s : string)
| DayClick (now day : Z) (selected : bool)
| ChangeAccount (s : string)
| ChangeAmount (parsed : Number)
| ChangeNotes (s : string)
| Submit (createTransaction : Request.t -> Exn + Response).

Definition handle (ev : Event) : M unit :=
  match ev with
  | AccountsEffect userId api => accountsEffect api userId
  | ClickExpense => onClickExpense
  | ClickIncome => onClickIncome
  | ChangeDescription s => setValue n_description (VString s)
  | ChangeCategory s => setValue n_category (VString s)
  | DayClick now day selected => onDayClick now day selected
  | ChangeAccount s => setValue n_account (VString s)
  | ChangeAmount parsed => onChangeAmount parsed
  | ChangeNotes s => setValue n_notes (VString s)
  | Submit api => handleSubmit (onSubmit api)
  end.

Definition step (st : State) (ev : Event) : State := (handle ev st).2.

Definition run (evs : list Event) (st : State) : State :=
  fold_left step evs st.

Definition edits_amount (ev : Event) : bool :=
  match ev with ChangeAmount _ => true | _ => false end.

Definition is_CreateTransaction (e : Effect) : bool :=
  match e with CreateTransaction _ => true | _ => false end.

Definition is_notification (e : Effect) : bool :=
  match e with ToastSuccess _ | ToastError _ => true | _ => false end.

(** ** The validation rules *)

Definition nonempty_string (v : Value) : Prop :=
  ∃ s, v = VString s ∧ s ≠ "".

Definition one_of (options : list string) (v : Value) : Prop :=
  ∃ s, v = VString s ∧ In s options.

Definition valid_date (v : Value) : Prop := ∃ t, v = VDate (Some t).

(** A number greater than 0 (so not NaN). *)
Definition positive_number (v : Value) : Prop :=
  ∃ x, v = VNumber x ∧ num_gt x zero = true.

Definition finite_positive_number (v : Value) : Prop :=
  ∃ x, v = VNumber x ∧ isFinite x = true ∧ num_gt x zero = true.

Definition optional_string (v : Value) : Prop :=
  v = VUndefined ∨ ∃ s, v = VString s.

(** The rule of each field, as [formSchema] has it. *)
Definition rule (n : FieldName) (d : FieldValues) : Prop :=
  match n with
  | n_account => nonempty_string (account d)
  | n_type => one_of ["expense"; "income"] (type d)
  | n_description => nonempty_string (description d)
  | n_category => nonempty_string (category d)
  | n_date => valid_date (date d)
  | n_amount => positive_number (amount d)
  | n_notes => optional_string (notes d)
  end.

(** The rule of each field in the words of the specification: the amount
    is moreover finite. *)
Definition stated_rule (n : FieldName) (d : FieldValues) : Prop :=
  match n with
  | n_amount => finite_positive_number (amount d)
  | _ => rule n d
  end.

(** The form values a request stands for, with [UserAccountId] back under
    the name [account]. *)
Definition of_request (r : Request.t) : FieldValues :=
  {| account := VString (Request.UserAccountId r);
     type := VString (Request.type r);
     description := VString (Request.description r);
     category := VString (Request.category r);
     date := VDate (Some (Request.date r));
     amount := VNumber (Request.amount r);
     notes := match Request.notes r with
              | Some s => VString s
              | None => VUndefined
              end |}.

(** ** Auxiliary views of the schema, used to state its properties *)

Definition issues_of {T} (r : ParseReturn T) : list ZodIssueCode :=
  match r with
  | OK _ => []
  | INVALID issues => issues
  end.

(** The issues [formSchema] raises under one key. *)
Definition field_issues (n : FieldName) (d : FieldValues)
  : list ZodIssueCode :=
  match n with
  | n_account => issues_of (s_account (account d))
  | n_type => issues_of (s_type (type d))
  | n_description => issues_of (s_description (description d))
  | n_category => issues_of (s_category (category d))
  | n_date => issues_of (s_date (date d))
  | n_amount => issues_of (s_amount (amount d))
  | n_notes => issues_of (s_notes (notes d))
  end.

Definition all_fields : list FieldName :=
  [n_account; n_type; n_description; n_category; n_date; n_amount; n_notes].

Definition all_issues (d : FieldValues) : list ZodIssue :=
  concat (map (fun n => map (pair (key n)) (field_issues n d)) all_fields).

(** A draft that is in order except that its amount is infinite. *)
Definition infinite_draft : FieldValues :=
  {| account := VString "a1";
     type := VString "expense";
     description := VString "Coffee";
     category := VString "food";
     date := VDate (Some 1709251200000%Z);
     amount := VNumber Infinity;
     notes := VUndefined |}.

(** A parse decides the property [P] of its input: it succeeds when [P]
    holds and raises exactly one issue when it does not. *)
Definition decides {T} (P : Prop) (r : ParseReturn T) : Prop :=
  (P ∧ ∃ x, r = OK x) ∨ (¬ P ∧ ∃ c, r = INVALID [c]).

(** The state [st] with a different trace. *)
Definition with_trace (st : State) (t : list Effect) : State :=
  Component.mk (Component.accounts st) (Component.defaultAccount st)
    (Component.showCalendar st) (Component.type st) (Component.form st)
    (Component.errors st) t.

(** ** Sample data *)

Definition cash : Account := mkAccount "a1" "Cash" false.
Definition bank : Account := mkAccount "a2" "Bank" true.
Definition card : Account := mkAccount "a3" "Card" true.

Definition coffee : Transaction.t :=
  {| Transaction.UserAccountId := "a1";
     Transaction.type := "expense";
     Transaction.description := "Coffee";
     Transaction.category := "food";
     Transaction.date := 1709251200000%Z;
     Transaction.amount := S754_finite false 9 (-1);
     Transaction.notes := None |}.

Definition coffee_values : Parsed.t :=
  {| Parsed.account := "a1";
     Parsed.type := "expense";
     Parsed.description := "Coffee";
     Parsed.category := "food";
     Parsed.date := 1709251200000%Z;
     Parsed.amount := S754_finite false 9 (-1);
     Parsed.notes := None |}.

Definition accounts_found : string -> Exn + list Account :=
  fun _ => inr [cash; bank; card].

Definition accounts_unreachable : string -> Exn + list Account :=
  fun _ => inl "fetch failed".

Definition created : Request.t -> Exn + Response :=
  fun _ => inr (ResponseObject (VBoolean true) VUndefined).

Definition rejected : Request.t -> Exn + Response :=
  fun _ => inr (ResponseObject (VBoolean false) (VString "Account not found")).

Definition unreachable : Request.t -> Exn + Response :=
  fun _ => inl "network error".

Definition no_response : Request.t -> Exn + Response :=
  fun _ => inr (NotAnObject VUndefined).

(** The amount still has its default and no creation call has been made. *)
Definition untouched (st : State) : Prop :=
  amount (Component.form st) = VNumber zero
  ∧ Forall (fun e => is_CreateTransaction e = false) (Component.trace st).

(** A session in which every field but the amount is filled in before the
    form is submitted. *)
Definition session_without_amount : list Event :=
  [AccountsEffect (Some "u1") accounts_found; ClickIncome;
   ChangeDescription "Salary"; ChangeCategory "salary";
   DayClick 1709337600000 1709251200000 false; ChangeNotes "March";
   Submit created].


(** ** Dates that reach the creation call *)




(** A draft in order but for its negative amount. *)
Definition negative_draft : FieldValues :=
  {| account := VString "a1";
     type := VString "expense";
     description := VString "Coffee";
     category := VString "food";
     date := VDate (Some 1709251200000%Z);
     amount := VNumber (S754_finite true 5 0);
     notes := VUndefined |}.

(** The draft of the specification's scenarios: 4.50 on coffee. *)
Definition coffee_draft : FieldValues :=
  {| account := VString "a1";
     type := VString "expense";
     description := VString "Coffee";
     category := VString "food";
     date := VDate (Some 1709251200000%Z);
     amount := VNumber (S754_finite false 9 (-1));
     notes := VUndefined |}.

(** ** More of the component *)

(** The code of the first issue raised under the path [k]. *)
Fixpoint first_code (k : string) (l : list ZodIssue) : option ZodIssueCode :=
  match l with
  | [] => None
  | (path, code) :: rest =>
      if String.eqb path k then Some code else first_code k rest
  end.

(** The [value] given to the account [Select]:
    [field.value || (defaultAccount ? defaultAccount.id : "")]. *)
Definition accountSelectValue (st : State) : Value :=
  js_or (account (Component.form st))
    (match Component.defaultAccount st with
     | Some a => VString (id a)
     | None => VString ""
     end).

(** The items of the account [Select]: value and label. *)
Definition accountItems (st : State) : list (string * string) :=
  map (fun account => (id account, name account)) (Component.accounts st).

(** The form's type is the one the buttons and the category list show. *)
Definition in_sync (st : State) : Prop :=
  type (Component.form st) = VString (type_name (Component.type st)).

Definition clicks_type (ev : Event) : bool :=
  match ev with ClickExpense | ClickIncome => true | _ => false end.

Definition selects_no_account (ev : Event) : bool :=
  match ev with ChangeAccount s => String.eqb s "" | _ => false end.

Definition calls_accounts (ev : Event) : bool :=
  match ev with
  | AccountsEffect (Some u) _ => truthy_string u
  | _ => false
  end.

Definition is_Submit (ev : Event) : bool :=
  match ev with Submit _ => true | _ => false end.

(** Kinds of effects, to count them in a trace. *)
Definition is_GetAllUserAccountsByUserId (e : Effect) : bool :=
  match e with GetAllUserAccountsByUserId _ => true | _ => false end.

Definition is_ToastSuccess (e : Effect) : bool :=
  match e with ToastSuccess _ => true | _ => false end.

Definition is_ToastError (e : Effect) : bool :=
  match e with ToastError _ => true | _ => false end.

Definition is_RevalidatePath (e : Effect) : bool :=
  match e with RevalidatePath _ => true | _ => false end.

Definition is_CloseSheet (e : Effect) : bool :=
  match e with CloseSheet => true | _ => false end.

Definition is_submit_log (e : Effect) : bool :=
  match e with
  | ConsoleError label _ => String.eqb label "Error submitting transaction:"
  | _ => false
  end.

Definition is_fetch_log (e : Effect) : bool :=
  match e with
  | ConsoleError label _ => String.eqb label "Error fetching accounts:"
  | _ => false
  end.

Definition count (p : Effect -> bool) (t : list Effect) : nat :=
  length (List.filter p t).

(** Parsed values that satisfy the constraints of the schema. *)
Definition well_formed (v : Parsed.t) : Prop :=
  Parsed.account v <> ""
  /\ In (Parsed.type v) ["expense"; "income"]
  /\ Parsed.description v <> ""
  /\ Parsed.category v <> ""
  /\ num_gt (Parsed.amount v) zero = true.

(** An existing transaction whose default values pass validation: an empty
    type is allowed, the default replaces it. *)
Definition complete (t : Transaction.t) : Prop :=
  Transaction.UserAccountId t <> ""
  /\ In (Transaction.type t) [""; "expense"; "income"]
  /\ Transaction.description t <> ""
  /\ Transaction.category t <> ""
  /\ num_gt (Transaction.amount t) zero = true.


Definition b2n (b : bool) : nat := if b then 1 else 0.

(** Every creation call in the trace has its one piece of feedback, and
    the revalidations and close signals are those of the successes. *)
Definition balanced (t : list Effect) : Prop :=
  count is_CreateTransaction t
  = count is_ToastSuccess t + count is_ToastError t + count is_submit_log t
  /\ count is_RevalidatePath t = count is_ToastSuccess t
  /\ count is_CloseSheet t = count is_ToastSuccess t.

(** What one event adds to the trace. *)
Definition adds (ev : Event) (new : list Effect) : Prop :=
  balanced new
  /\ count is_GetAllUserAccountsByUserId new = b2n (calls_accounts ev)
  /\ count is_CreateTransaction new <= b2n (is_Submit ev)
  /\ count is_fetch_log new <= count is_GetAllUserAccountsByUserId new.

(** The hooks other than the form values, its errors and the trace. *)
Definition same_hooks (st st' : State) : Prop :=
  Component.accounts st' = Component.accounts st
  /\ Component.defaultAccount st' = Component.defaultAccount st
  /\ Component.showCalendar st' = Component.showCalendar st
  /\ Component.type st' = Component.type st.

(** The account of the form is a string, and when it is empty the default
    account, if any, has the empty id too. *)
Definition account_shown (st : State) : Prop :=
  exists s,
    account (Component.form st) = VString s
    /\ (s = "" ->
        match Component.defaultAccount st with
        | Some a => id a = ""
        | None => True
        end).


(** ** Calendar days *)

(** The days of the calendar are dates at local midnight.  A day is
    numbered from 1970-01-01, as [MakeDay] does; [tza] is the offset of
    local time from UTC in milliseconds, positive east of Greenwich. *)
Definition day1900 : Z := MakeDay 1900 0 1.





(** ** An unedited form *)

(** The account an unedited form holds once the accounts effect has run:
    the default account's id when the accounts were fetched (empty when
    none is the default), the transaction's own account when there was no
    fetch or it failed. *)
Definition account_after_effect
  (getAll : string -> Exn + list Account) (userId : option string)
  (t : Transaction.t) : string :=
  match userId with
  | Some u =>
      if truthy_string u then
        match getAll u with
        | inr fetched =>
            match find isDefault fetched with
            | Some d => id d
            | None => ""
            end
        | inl _ => Transaction.UserAccountId t
        end
      else Transaction.UserAccountId t
  | None => Transaction.UserAccountId t
  end.

(** The request an unedited form sends for the account [a]. *)
Definition request_anew (a : string) (now : Z) (t : Transaction.t)
  : Request.t :=
  {| Request.UserAccountId := a;
     Request.type := if String.eqb (Transaction.type t) "" then "expense"
                     else Transaction.type t;
     Request.description := Transaction.description t;
     Request.category := Transaction.category t;
     Request.date := now;
     Request.amount := Transaction.amount t;
     Request.notes := Some (match Transaction.notes t with
                            | Some s => s
                            | None => ""
                            end) |}.

(** * Properties *)

Local Open Scope list_scope.

(** ** Validation *)

Lemma min1_string_decides (v : Value) :
  decides (nonempty_string v) (z.min 1 z.string v).
Proof.
  unfold decides, nonempty_string, z.min, z.string.
  destruct v as [| |b|x|s|d]; cbn;
    try (right; split; [intros (s' & [=] & _)|by eauto]).
  destruct s as [|c s]; cbn.
  - right. split; [intros (s' & [= <-] & Hs); done|eauto].
  - left. split; [exists (String c s); done|eauto].
Qed.

Lemma enum_decides (options : list string) (v : Value) :
  decides (one_of options v) (z.enum options v).
Proof.
  unfold decides, one_of, z.enum.
  destruct v as [| |b|x|s|d]; cbn [getParsedType];
    try (right; split; [intros (s' & [=] & _)|by eauto]).
  destruct (existsb (String.eqb s) options) eqn:Hex.
  - left. split; [|eauto]. exists s. split; [done|].
    apply existsb_exists in Hex as (o & Hin & Heq).
    apply String.eqb_eq in Heq. by subst.
  - right. split; [|eauto]. intros (s' & [= <-] & Hin).
    assert (existsb (String.eqb s) options = true) as Habs; [|congruence].
    apply existsb_exists. exists s. split; [done|apply String.eqb_refl].
Qed.

Lemma date_decides (v : Value) : decides (valid_date v) (z.date v).
Proof.
  unfold decides, valid_date, z.date.
  destruct v as [| |b|x|s|[t|]]; cbn;
    try (right; split; [intros (t' & [=])|by eauto]).
  left. eauto.
Qed.

Lemma num_le_zero_gt (x : Number) :
  isNaN x = false → num_le x zero = negb (num_gt x zero).
Proof. by destruct x as [[]|[]| |[] m e]. Qed.

Lemma num_gt_not_NaN (x y : Number) : num_gt x y = true → isNaN x = false.
Proof. by destruct x, y. Qed.

Lemma positive_number_decides (v : Value) :
  decides (positive_number v) (z.positive z.number v).
Proof.
  unfold decides, positive_number, z.positive, z.number.
  destruct v as [| |b|x|s|d]; cbn [getParsedType];
    try (right; split; [intros (x' & [=] & _)|by eauto]).
  destruct (isNaN x) eqn:Hnan.
  - right. split; [|eauto]. intros (x' & [= <-] & Hgt).
    apply num_gt_not_NaN in Hgt. congruence.
  - rewrite (num_le_zero_gt x Hnan). destruct (num_gt x zero) eqn:Hgt; cbn [negb].
    + left. eauto.
    + right. split; [|eauto]. intros (x' & [= <-] & Hgt'). congruence.
Qed.

Lemma optional_string_decides (v : Value) :
  decides (optional_string v) (z.optional z.string v).
Proof.
  unfold decides, optional_string, z.optional, z.string.
  destruct v as [| |b|x|s|d]; cbn;
    try (left; by eauto);
    right; (split; [intros [[=]|(s' & [=])]|eauto]).
Qed.

Lemma field_decides (n : FieldName) (d : FieldValues) :
  match n with
  | n_account => decides (rule n d) (s_account (account d))
  | n_type => decides (rule n d) (s_type (type d))
  | n_description => decides (rule n d) (s_description (description d))
  | n_category => decides (rule n d) (s_category (category d))
  | n_date => decides (rule n d) (s_date (date d))
  | n_amount => decides (rule n d) (s_amount (amount d))
  | n_notes => decides (rule n d) (s_notes (notes d))
  end.
Proof.
  destruct n; cbn [rule].
  - apply min1_string_decides.
  - apply enum_decides.
  - apply min1_string_decides.
  - apply min1_string_decides.
  - apply date_decides.
  - apply positive_number_decides.
  - apply optional_string_decides.
Qed.

Lemma decides_issues {T} (P : Prop) (r : ParseReturn T) :
  decides P r → (issues_of r = [] ↔ P).
Proof.
  intros [(HP & x & ->)|(HP & c & ->)]; cbn; [done|].
  split; [done|]. intros ?. by destruct HP.
Qed.

(** A field raises no issue exactly when its rule holds. *)
Lemma field_issues_rule (n : FieldName) (d : FieldValues) :
  field_issues n d = [] ↔ rule n d.
Proof.
  pose proof (field_decides n d) as H.
  destruct n; cbn [field_issues]; by apply decides_issues.
Qed.

Lemma at_path_issues_of {T} (k : string) (r : ParseReturn T) :
  at_path k r = map (pair k) (issues_of r).
Proof. by destruct r. Qed.

Ltac invalid_field Hdec n Heq :=
  split; [done|]; exists n; cbn [field_issues]; rewrite Heq;
  let H := fresh in
  pose proof (Hdec n) as H; cbn beta iota in H;
  destruct H as [(_ & ? & ?)|(_ & ? & [= ->])]; done.

Lemma formSchema_issues (d : FieldValues) :
  match formSchema d with
  | inl _ => ∀ n, field_issues n d = []
  | inr l => l = all_issues d ∧ ∃ n, field_issues n d ≠ []
  end.
Proof.
  pose proof (λ n, field_decides n d) as Hdec.
  unfold formSchema, all_issues; cbn [all_fields map concat key field_issues].
  rewrite <- !at_path_issues_of, app_nil_r.
  destruct (s_account (account d)) eqn:Ha; [|invalid_field Hdec n_account Ha].
  destruct (s_type (type d)) eqn:Hty; [|invalid_field Hdec n_type Hty].
  destruct (s_description (description d)) eqn:Hde;
    [|invalid_field Hdec n_description Hde].
  destruct (s_category (category d)) eqn:Hc; [|invalid_field Hdec n_category Hc].
  destruct (s_date (date d)) eqn:Hda; [|invalid_field Hdec n_date Hda].
  destruct (s_amount (amount d)) eqn:Ham; [|invalid_field Hdec n_amount Ham].
  destruct (s_notes (notes d)) eqn:Hn; [|invalid_field Hdec n_notes Hn].
  intros []; cbn [field_issues]; by rewrite ?Ha, ?Hty, ?Hde, ?Hc, ?Hda, ?Ham, ?Hn.
Qed.

Lemma parseErrorSchema_dom (l : list ZodIssue) (m : gmap string FieldError) :
  dom (parseErrorSchema l m) = dom m ∪ list_to_set l.*1.
Proof.
  revert m. induction l as [|[path code] l IH]; intros m; cbn.
  - by rewrite (right_id_L ∅ (∪)).
  - destruct (m !! path) as [e|] eqn:Hm; rewrite IH; apply set_eq; intros k;
      rewrite ?dom_insert_L, !elem_of_union, ?elem_of_singleton.
    + split; [tauto|]. intros [?|[->|?]]; [tauto| |tauto].
      left. by apply (elem_of_dom_2 (D := gset string)) in Hm.
    + tauto.
Qed.

Lemma all_issues_paths (d : FieldValues) (k : string) :
  k ∈ (all_issues d).*1 ↔ ∃ n, k = key n ∧ field_issues n d ≠ [].
Proof.
  unfold all_issues. rewrite list_elem_of_fmap. split.
  - intros ([k' c] & -> & Hin).
    apply list_elem_of_In, in_concat in Hin as (l & Hl & Hin).
    apply in_map_iff in Hl as (n & <- & _).
    apply in_map_iff in Hin as (c' & [= <- <-] & Hc).
    exists n. split; [done|]. intros Hnil. by rewrite Hnil in Hc.
  - intros (n & -> & Hne). destruct (field_issues n d) as [|c l] eqn:Hf; [done|].
    exists (key n, c). split; [done|]. apply list_elem_of_In, in_concat.
    exists (map (pair (key n)) (field_issues n d)). split.
    + apply in_map_iff. exists n. split; [done|]. destruct n; cbn; tauto.
    + rewrite Hf. by left.
Qed.

Lemma zodResolver_errors_dom (d : FieldValues) (k : string) :
  k ∈ dom (errors (zodResolver d)) ↔ ∃ n, k = key n ∧ ¬ rule n d.
Proof.
  unfold zodResolver. pose proof (formSchema_issues d) as H.
  pose proof (not_elem_of_empty (C := gset string) k) as Hempty.
  destruct (formSchema d) as [v|l]; cbn [errors].
  - rewrite dom_empty_L. split; [done|].
    intros (n & _ & Hn). destruct Hn. apply field_issues_rule, H.
  - destruct H as [-> _]. rewrite parseErrorSchema_dom, dom_empty_L.
    rewrite elem_of_union, elem_of_list_to_set, all_issues_paths.
    setoid_rewrite field_issues_rule. tauto.
Qed.

Lemma zodResolver_valid (d : FieldValues) :
  errors (zodResolver d) = ∅ ↔ ∀ n, rule n d.
Proof.
  split.
  - intros He n. destruct (decide (field_issues n d = [])) as [Hf|Hf].
    + by apply field_issues_rule.
    + assert (key n ∈ dom (errors (zodResolver d))) as Hin.
      { apply zodResolver_errors_dom. exists n. by rewrite <- field_issues_rule. }
      rewrite He in Hin. set_solver.
  - intros Hall. apply (dom_empty_inv_L (D := gset string)).
    apply set_eq. intros k. rewrite zodResolver_errors_dom. split; [|set_solver].
    intros (n & _ & Hn). by destruct Hn.
Qed.

(** C1, as amended.  [validate] returns valid with an empty error set
    exactly when every rule of the schema holds: the account, the
    description and the category are non-empty strings, the type is
    ["expense"] or ["income"], the date is a valid date, the amount is a
    number greater than 0 (NaN is refused, an infinite amount is not) and
    the notes are absent or a string.  Otherwise the result is invalid, and
    the keys of its error set are exactly the names of the fields whose
    rule fails. *)
Theorem validate_exact (d : FieldValues) :
  (validate d = (true, ∅) ↔ ∀ n, rule n d) ∧
  ((validate d).1 = false ↔ ∃ n, ¬ rule n d) ∧
  (∀ k, k ∈ dom (validate d).2 ↔ ∃ n, k = key n ∧ ¬ rule n d).
Proof.
  unfold validate. cbn [fst snd]. split; [|split].
  - rewrite <- zodResolver_valid. split.
    + by intros [= _ ->].
    + intros ->. by rewrite bool_decide_eq_true_2.
  - rewrite bool_decide_eq_false, zodResolver_valid. split.
    + intros Hnot.
      destruct (decide (Exists (λ n, field_issues n d ≠ []) all_fields))
        as [Hex|Hno].
      * apply Exists_exists in Hex as (n & _ & Hn). exists n.
        by rewrite <- field_issues_rule.
      * destruct Hnot. intros n. apply field_issues_rule, dec_stable.
        intros Hf. apply Hno, Exists_exists. exists n. split; [|done].
        unfold all_fields. destruct n; set_solver.
    + intros (n & Hn) Hall. by apply Hn.
  - apply zodResolver_errors_dom.
Qed.

(** C1 as stated fails: an infinite amount passes validation although it
    is not a finite number. *)
Lemma validate_accepts_infinite_amount :
  validate infinite_draft = (true, ∅)
  ∧ ¬ (∀ n, stated_rule n infinite_draft).
Proof.
  split.
  - vm_compute. reflexivity.
  - intros H. destruct (H n_amount) as (x & [= <-] & Hfin & _). done.
Qed.

(** ** The account resolver *)

Lemma find_first (A : Type) (f : A → bool) (pre post : list A) (a : A) :
  Forall (λ b, f b = false) pre → f a = true →
  find f (pre ++ a :: post) = Some a.
Proof.
  induction 1 as [|b pre Hb _ IH]; intros Ha; cbn.
  - by rewrite Ha.
  - rewrite Hb. by apply IH.
Qed.

Lemma find_none (A : Type) (f : A → bool) (l : list A) :
  Forall (λ b, f b = false) l → find f l = None.
Proof. induction 1 as [|b l Hb _ IH]; cbn; [done|by rewrite Hb]. Qed.

Lemma find_isDefault (l : list Account) :
  find (λ account, Bool.eqb (isDefault account) true) l = find isDefault l.
Proof.
  induction l as [|a l IH]; cbn; [done|]. rewrite IH. by destruct (isDefault a).
Qed.

(** Unfolds the operations of [M], leaving the state transformer. *)
Ltac unfold_M :=
  cbv [try_catch mbind M_bind mret M_ret emit await throw console.error
       toast.success toast.error customRevalidatePath closeSheetCallback
       setAccounts setDefaultAccount setShowCalendar setType setErrors
       getForm setValue success error].

(** What the effect does when the accounts arrive. *)
Lemma accountsEffect_fetched (getAll : string → Exn + list Account)
    (userId : string) (fetched : list Account) (st : State) :
  truthy_string userId = true →
  getAll userId = inr fetched →
  accountsEffect getAll (Some userId) st =
    (inr tt,
     Component.mk fetched (find isDefault fetched)
       (Component.showCalendar st) (Component.type st)
       (set n_account
          (VString (match find isDefault fetched with
                    | Some a => id a
                    | None => ""
                    end))
          (Component.form st))
       (Component.errors st)
       (Component.trace st ++ [GetAllUserAccountsByUserId userId])).
Proof.
  intros Hu Hget. unfold accountsEffect, fetchAccountsAndDefaultAccount.
  rewrite Hu. unfold_M. rewrite Hget. cbn. by rewrite find_isDefault.
Qed.

(** What the effect does when the fetch fails. *)
Lemma accountsEffect_failed (getAll : string → Exn + list Account)
    (userId : string) (e : Exn) (st : State) :
  truthy_string userId = true →
  getAll userId = inl e →
  accountsEffect getAll (Some userId) st =
    (inr tt,
     with_trace st
       (Component.trace st
        ++ [GetAllUserAccountsByUserId userId;
            ConsoleError "Error fetching accounts:" e])).
Proof.
  intros Hu Hget. unfold accountsEffect, fetchAccountsAndDefaultAccount.
  rewrite Hu. unfold_M. rewrite Hget. cbn. unfold with_trace.
  by rewrite <- app_assoc.
Qed.

Lemma get_set (n m : FieldName) (v : Value) (d : FieldValues) :
  get m (set n v d) = if decide (m = n) then v else get m d.
Proof.
  destruct n, m; cbn; by repeat case_decide.
Qed.

(** C2.  When the accounts have been fetched, the form's account becomes
    the id of the first account whose [isDefault] is true, whatever it held
    before (the state [st] is arbitrary, so also an initial value taken
    from [initialData]); when no account is the default it becomes the
    empty string.  No other field changes. *)
Theorem default_account_overwrites
    (getAll : string → Exn + list Account) (userId : string)
    (fetched : list Account) (st : State) :
  truthy_string userId = true →
  getAll userId = inr fetched →
  (∀ pre a post,
     fetched = pre ++ a :: post →
     Forall (λ b, isDefault b = false) pre → isDefault a = true →
     account (Component.form (accountsEffect getAll (Some userId) st).2)
     = VString (id a))
  ∧ (Forall (λ b, isDefault b = false) fetched →
     account (Component.form (accountsEffect getAll (Some userId) st).2)
     = VString "")
  ∧ (∀ n, n ≠ n_account →
     get n (Component.form (accountsEffect getAll (Some userId) st).2)
     = get n (Component.form st)).
Proof.
  intros Hu Hget. rewrite (accountsEffect_fetched _ _ _ _ Hu Hget).
  cbn [snd Component.form]. split; [|split].
  - intros pre a post -> Hpre Ha. by rewrite (find_first _ _ _ _ _ Hpre Ha).
  - intros Hnone. by rewrite (find_none _ _ _ Hnone).
  - intros n Hn. rewrite get_set. by case_decide.
Qed.

Lemma default_account_overwrites_witness :
  truthy_string "u1" = true
  ∧ accounts_found "u1" = inr [cash; bank; card]
  ∧ account (Component.form (mount 0 (Some coffee))) = VString "a1"
  ∧ account
      (Component.form
         (accountsEffect accounts_found (Some "u1") (mount 0 (Some coffee))).2)
    = VString "a2".
Proof.
  split; [reflexivity|]. split; [reflexivity|]. split; [reflexivity|].
  apply (proj1 (default_account_overwrites accounts_found "u1"
                  [cash; bank; card] (mount 0 (Some coffee))
                  eq_refl eq_refl) [cash] bank [card]).
  - reflexivity.
  - repeat constructor.
  - reflexivity.
Defined.

(** C7, as amended.  When the fetch of the accounts throws, the exception
    is caught and logged and nothing else happens: the effect returns
    normally and the form values are what they were, so the account keeps
    its previous value (the empty string for a form opened without initial
    data, the initial data's account otherwise) and every field can still
    be set. *)
Theorem fetch_failure_is_logged
    (getAll : string → Exn + list Account) (userId : string) (e : Exn)
    (st : State) :
  truthy_string userId = true →
  getAll userId = inl e →
  accountsEffect getAll (Some userId) st =
    (inr tt,
     with_trace st
       (Component.trace st
        ++ [GetAllUserAccountsByUserId userId;
            ConsoleError "Error fetching accounts:" e]))
  ∧ account (Component.form (accountsEffect getAll (Some userId) st).2)
    = account (Component.form st)
  ∧ (∀ now, st = mount now None →
     account (Component.form (accountsEffect getAll (Some userId) st).2)
     = VString "")
  ∧ (∀ n v,
       get n
         (Component.form
            (setValue n v (accountsEffect getAll (Some userId) st).2).2)
       = v).
Proof.
  intros Hu Hget. rewrite (accountsEffect_failed _ _ _ _ Hu Hget).
  split; [done|]. split; [done|]. split.
  - by intros now ->.
  - intros n v. cbn. rewrite get_set. by case_decide.
Qed.

Lemma fetch_failure_is_logged_witness :
  truthy_string "u1" = true
  ∧ accounts_unreachable "u1" = inl "fetch failed"
  ∧ account
      (Component.form
         (accountsEffect accounts_unreachable (Some "u1") (mount 0 None)).2)
    = VString "".
Proof.
  split; [reflexivity|]. split; [reflexivity|].
  apply (proj1 (proj2 (proj2 (fetch_failure_is_logged accounts_unreachable
                                "u1" "fetch failed" (mount 0 None)
                                eq_refl eq_refl))) 0%Z).
  reflexivity.
Defined.

(** C7 as stated fails: in a form opened on an existing transaction, the
    account is not empty after a failed fetch. *)
Lemma fetch_failure_keeps_initial_account :
  account
    (Component.form
       (accountsEffect accounts_unreachable (Some "u1")
          (mount 0 (Some coffee))).2)
  = VString "a1"
  ∧ account
      (Component.form
         (accountsEffect accounts_unreachable (Some "u1")
            (mount 0 (Some coffee))).2)
    ≠ VString "".
Proof. split; [reflexivity|discriminate]. Qed.

(** ** The submission pipeline *)

(** C3, as amended.  When the creation call returns [response], [onSubmit]
    returns normally, changes nothing but the trace, and after the call
    emits: for an object whose [success] is truthy, the success
    notification, the revalidation of ["/transactions"] and the close
    signal, in this order; for an object whose [success] is falsy and
    whose [error] is truthy, one error notification carrying that error,
    and no close signal; for an object whose [success] and [error] are
    both falsy or absent, and for every value other than [undefined] and
    [null] that has neither property, the generic failure notification;
    for [undefined] and [null], whose property access throws, only the
    logged exception and no notification. *)
Theorem onSubmit_reduces_response
    (createTransaction : Request.t → Exn + Response) (values : Parsed.t)
    (response : Response) (st : State) :
  createTransaction (toRequest values) = inr response →
  ∃ emitted,
    onSubmit createTransaction values st =
      (inr tt,
       with_trace st
         (Component.trace st
          ++ CreateTransaction (toRequest values) :: emitted))
    ∧ (∀ s e,
         response = ResponseObject s e → truthy s = true →
         emitted = [ToastSuccess "Transaction created successfully";
                    RevalidatePath "/transactions"; CloseSheet])
    ∧ (∀ s e,
         response = ResponseObject s e → truthy s = false →
         truthy e = true →
         emitted = [ToastError e])
    ∧ (∀ s e,
         response = ResponseObject s e → truthy s = false →
         truthy e = false →
         emitted = [ToastError (VString "Failed to create transaction!")])
    ∧ (∀ v,
         response = NotAnObject v → v ≠ VUndefined → v ≠ VNull →
         emitted = [ToastError (VString "Failed to create transaction!")])
    ∧ (response = NotAnObject VUndefined ∨ response = NotAnObject VNull →
       emitted = [ConsoleError "Error submitting transaction:" TypeError]).
Proof.
  intros Hcall. unfold onSubmit. unfold_M. rewrite Hcall.
  destruct response as [v|s e].
  - destruct v as [| |b|x|str|d];
      (eexists; split;
       [unfold with_trace; cbn; rewrite <- ?app_assoc; reflexivity|]);
      (split; [by intros s e [=]|]); (split; [by intros s e [=]|]);
      (split; [by intros s e [=]|]);
      (split; [intros v' [= <-] Hu Hn; done|intros [[=]|[=]]; done]).
  - destruct (truthy s) eqn:Hs; [|destruct (truthy e) eqn:He];
      (eexists; split;
       [unfold with_trace; cbn; rewrite <- ?app_assoc; reflexivity|]);
      (split; [intros s' e' [= <- <-] Hs';
               first [congruence|reflexivity]|]);
      (split; [intros s' e' [= <- <-] Hs' He';
               first [congruence|reflexivity]|]);
      (split; [intros s' e' [= <- <-] Hs' He';
               first [congruence|reflexivity]|]);
      (split; [by intros v [=]|by intros [[=]|[=]]]).
Qed.

Lemma onSubmit_reduces_response_witness :
  rejected (toRequest coffee_values)
  = inr (ResponseObject (VBoolean false) (VString "Account not found"))
  ∧ onSubmit rejected coffee_values (mount 0 None) =
      (inr tt,
       with_trace (mount 0 None)
         [CreateTransaction (toRequest coffee_values);
          ToastError (VString "Account not found")]).
Proof.
  split; [reflexivity|].
  destruct (onSubmit_reduces_response rejected coffee_values
              (ResponseObject (VBoolean false) (VString "Account not found"))
              (mount 0 None) eq_refl)
    as (emitted & -> & _ & Herr & _).
  by rewrite (Herr (VBoolean false) (VString "Account not found")
                eq_refl eq_refl eq_refl).
Defined.

(** C3 as stated fails: when the call resolves with [undefined], a falsy
    result, reading [response.success] throws; the exception is logged and
    no notification is emitted, the generic one included. *)
Lemma undefined_result_is_only_logged :
  onSubmit no_response coffee_values (mount 0 None) =
    (inr tt,
     with_trace (mount 0 None)
       [CreateTransaction (toRequest coffee_values);
        ConsoleError "Error submitting transaction:" TypeError])
  ∧ Forall (λ e, is_notification e = false)
      (Component.trace (onSubmit no_response coffee_values (mount 0 None)).2).
Proof. split; [reflexivity|by repeat constructor]. Qed.

(** C4.  When the creation call throws, [onSubmit] catches the exception
    and logs it; after the call it emits nothing else, so no notification,
    no revalidation and no close signal, and the form values and the other
    hooks are unchanged. *)
Theorem onSubmit_logs_exception
    (createTransaction : Request.t → Exn + Response) (values : Parsed.t)
    (e : Exn) (st : State) :
  createTransaction (toRequest values) = inl e →
  onSubmit createTransaction values st =
    (inr tt,
     with_trace st
       (Component.trace st
        ++ [CreateTransaction (toRequest values);
            ConsoleError "Error submitting transaction:" e]))
  ∧ Component.form (onSubmit createTransaction values st).2
    = Component.form st
  ∧ ∀ eff,
      eff ∈ drop (length (Component.trace st))
              (Component.trace (onSubmit createTransaction values st).2) →
      is_notification eff = false ∧ eff ≠ CloseSheet
      ∧ ∀ path, eff ≠ RevalidatePath path.
Proof.
  intros Hcall.
  assert (onSubmit createTransaction values st =
    (inr tt,
     with_trace st
       (Component.trace st
        ++ [CreateTransaction (toRequest values);
            ConsoleError "Error submitting transaction:" e]))) as ->.
  { unfold onSubmit. unfold_M. rewrite Hcall. unfold with_trace; cbn.
    by rewrite <- app_assoc. }
  split; [done|]. split; [done|]. cbn [snd with_trace Component.trace].
  rewrite drop_app_length. intros eff Hin.
  apply elem_of_cons in Hin as [->|Hin]; [done|].
  apply list_elem_of_singleton in Hin as ->. done.
Qed.

Lemma onSubmit_logs_exception_witness :
  unreachable (toRequest coffee_values) = inl "network error"%string
  ∧ onSubmit unreachable coffee_values (mount 0 None) =
      (inr tt,
       with_trace (mount 0 None)
         [CreateTransaction (toRequest coffee_values);
          ConsoleError "Error submitting transaction:" "network error"]).
Proof.
  split; [reflexivity|].
  apply (proj1 (onSubmit_logs_exception unreachable coffee_values
                  "network error"%string (mount 0 None) eq_refl)).
Defined.

Lemma min1_string_OK (v : Value) (s : string) :
  z.min 1 z.string v = OK s → v = VString s.
Proof.
  unfold z.min, z.string. destruct v as [| |b|x|s'|d]; try done.
  destruct (Nat.ltb (String.length s') 1); [done|]. by intros [= ->].
Qed.

Lemma enum_OK (options : list string) (v : Value) (s : string) :
  z.enum options v = OK s → v = VString s.
Proof.
  unfold z.enum. destruct v as [| |b|x|s'|d]; try done.
  destruct (existsb (String.eqb s') options); [|done]. by intros [= ->].
Qed.

Lemma date_OK (v : Value) (t : Z) : z.date v = OK t → v = VDate (Some t).
Proof.
  unfold z.date. destruct v as [| |b|x|s'|[t'|]]; try done. by intros [= ->].
Qed.

Lemma positive_number_OK (v : Value) (x : Number) :
  z.positive z.number v = OK x → v = VNumber x.
Proof.
  unfold z.positive, z.number. destruct v as [| |b|x'|s'|d]; try done.
  destruct (isNaN x'); [done|]. destruct (num_le x' zero); [done|].
  by intros [= ->].
Qed.

Lemma optional_string_OK (v : Value) (o : option string) :
  z.optional z.string v = OK o →
  v = match o with Some s => VString s | None => VUndefined end.
Proof.
  unfold z.optional, z.string.
  destruct v as [| |b|x'|s'|d]; try done; by intros [= <-].
Qed.

(** A successful parse returns the values it was given. *)
Lemma formSchema_inl (d : FieldValues) (v : Parsed.t) :
  formSchema d = inl v → of_request (toRequest v) = d.
Proof.
  unfold formSchema.
  destruct (s_account (account d)) eqn:Ha; [|done].
  destruct (s_type (type d)) eqn:Hty; [|done].
  destruct (s_description (description d)) eqn:Hde; [|done].
  destruct (s_category (category d)) eqn:Hc; [|done].
  destruct (s_date (date d)) eqn:Hda; [|done].
  destruct (s_amount (amount d)) eqn:Ham; [|done].
  destruct (s_notes (notes d)) eqn:Hn; [|done].
  intros [= <-]. unfold of_request, toRequest; cbn.
  apply min1_string_OK in Ha, Hde, Hc. apply enum_OK in Hty.
  apply date_OK in Hda. apply positive_number_OK in Ham.
  apply optional_string_OK in Hn.
  destruct d; cbn in *. by subst.
Qed.

(** The resolver returns values exactly when it returns no error. *)
Lemma zodResolver_values (d : FieldValues) :
  match values (zodResolver d) with
  | Some v => formSchema d = inl v ∧ errors (zodResolver d) = ∅
  | None => errors (zodResolver d) ≠ ∅
  end.
Proof.
  pose proof (formSchema_issues d) as H.
  pose proof (zodResolver_valid d) as Hv. unfold zodResolver in *.
  destruct (formSchema d) as [v|l]; cbn [values errors] in *; [done|].
  destruct H as (_ & n & Hn). intros He.
  apply Hn, field_issues_rule. by apply (proj1 Hv).
Qed.

Lemma handleSubmit_valid (onValid : Parsed.t → M unit) (st : State)
    (v : Parsed.t) :
  values (zodResolver (Component.form st)) = Some v →
  handleSubmit onValid st =
    onValid v
      (Component.mk (Component.accounts st) (Component.defaultAccount st)
         (Component.showCalendar st) (Component.type st) (Component.form st)
         ∅ (Component.trace st)).
Proof.
  intros Hv. pose proof (zodResolver_values (Component.form st)) as H.
  rewrite Hv in H. destruct H as [_ He].
  unfold handleSubmit. unfold_M. by rewrite Hv, He.
Qed.

Lemma handleSubmit_invalid (onValid : Parsed.t → M unit) (st : State) :
  values (zodResolver (Component.form st)) = None →
  handleSubmit onValid st =
    (inr tt,
     Component.mk (Component.accounts st) (Component.defaultAccount st)
       (Component.showCalendar st) (Component.type st) (Component.form st)
       (errors (zodResolver (Component.form st))) (Component.trace st)).
Proof. intros Hv. unfold handleSubmit. unfold_M. by rewrite Hv. Qed.

(** Whatever the creation call does, it is the first thing [onSubmit]
    does and it is made once, and the form values are not touched. *)
Lemma onSubmit_calls_first (createTransaction : Request.t → Exn + Response)
    (values : Parsed.t) (st : State) :
  ∃ rest,
    onSubmit createTransaction values st =
      (inr tt,
       with_trace st
         (Component.trace st ++ CreateTransaction (toRequest values) :: rest))
    ∧ Forall (λ e, is_CreateTransaction e = false) rest.
Proof.
  unfold onSubmit. unfold_M.
  destruct (createTransaction (toRequest values))
    as [e|[[| |b|x|str|d]|s e]];
    [| | | | | | |destruct (truthy s); [|destruct (truthy e)]];
    eexists; (split;
      [unfold with_trace; cbn; rewrite <- ?app_assoc; reflexivity
      |by repeat constructor]).
Qed.

(** C8.  When the form values pass validation, submitting them calls
    [createTransaction] with a request that holds the same values under the
    same names, except that the account is under [UserAccountId]: read
    back with [of_request], the request is the form values. *)
Theorem request_is_renamed_draft
    (createTransaction : Request.t → Exn + Response) (st : State) :
  (validate (Component.form st)).1 = true →
  ∃ request rest,
    Component.trace (handleSubmit (onSubmit createTransaction) st).2
    = Component.trace st ++ CreateTransaction request :: rest
    ∧ of_request request = Component.form st.
Proof.
  unfold validate; cbn [fst]. rewrite bool_decide_eq_true. intros He.
  pose proof (zodResolver_values (Component.form st)) as H.
  destruct (values (zodResolver (Component.form st))) as [v|] eqn:Hv; [|done].
  destruct H as [Hparse _]. rewrite (handleSubmit_valid _ _ _ Hv).
  destruct (onSubmit_calls_first createTransaction v
              (Component.mk (Component.accounts st)
                 (Component.defaultAccount st) (Component.showCalendar st)
                 (Component.type st) (Component.form st) ∅
                 (Component.trace st))) as (rest & -> & _).
  exists (toRequest v), rest. split; [done|]. by apply formSchema_inl.
Qed.

Lemma request_is_renamed_draft_witness :
  (validate (Component.form (mount 0 (Some coffee)))).1 = true
  ∧ ∃ request rest,
      Component.trace
        (handleSubmit (onSubmit created) (mount 0 (Some coffee))).2
      = Component.trace (mount 0 (Some coffee))
        ++ CreateTransaction request :: rest
      ∧ of_request request = Component.form (mount 0 (Some coffee)).
Proof.
  split; [vm_compute; reflexivity|].
  apply (request_is_renamed_draft created (mount 0 (Some coffee))).
  vm_compute; reflexivity.
Defined.

(** ** The type buttons and the category list *)

(** C5.  After a click on Income the categories that can be chosen are the
    income keys, after a click on Expense the expense keys; either click
    sets the form's type and leaves every other form value, the category
    among them, as it was. *)
Theorem type_switch_keeps_category
    (EXPENSE_CATEGORIES_KEYS INCOME_CATEGORIES_KEYS : list string)
    (EXPENSE_CATEGORIES INCOME_CATEGORIES : gmap string string)
    (st : State) :
  (selectableCategories EXPENSE_CATEGORIES_KEYS INCOME_CATEGORIES_KEYS
     EXPENSE_CATEGORIES INCOME_CATEGORIES (onClickIncome st).2
   = INCOME_CATEGORIES_KEYS
   ∧ type (Component.form (onClickIncome st).2) = VString "income"
   ∧ category (Component.form (onClickIncome st).2)
     = category (Component.form st))
  ∧ (selectableCategories EXPENSE_CATEGORIES_KEYS INCOME_CATEGORIES_KEYS
       EXPENSE_CATEGORIES INCOME_CATEGORIES (onClickExpense st).2
     = EXPENSE_CATEGORIES_KEYS
     ∧ type (Component.form (onClickExpense st).2) = VString "expense"
     ∧ category (Component.form (onClickExpense st).2)
       = category (Component.form st))
  ∧ (∀ n, n ≠ n_type →
       get n (Component.form (onClickIncome st).2)
       = get n (Component.form st)
       ∧ get n (Component.form (onClickExpense st).2)
         = get n (Component.form st)).
Proof.
  unfold selectableCategories, categoryItems, onClickIncome, onClickExpense.
  unfold_M. cbn [snd Component.type Component.form set type category].
  rewrite !map_map. cbn [fst]. rewrite !map_id.
  repeat split; try done; by destruct n.
Qed.

(** ** Default values *)

(** C9.  Whatever [initialData] is, the initial date of the form is the
    current date at the time the default values are computed; two initial
    transactions that differ only in their date give the same default
    values. *)
Theorem initial_date_is_now (now : Z) (initialData : option Transaction.t) :
  date (defaultValues now initialData) = VDate (Some now)
  ∧ date (Component.form (mount now initialData)) = VDate (Some now)
  ∧ ∀ a ty de c d1 d2 am n,
      defaultValues now (Some (Transaction.mk a ty de c d1 am n))
      = defaultValues now (Some (Transaction.mk a ty de c d2 am n)).
Proof. done. Qed.

(** ** The date picker *)

Lemma Date_parse_1900 : Date_parse "1900-01-01" = Some (-2208988800000)%Z.
Proof. reflexivity. Qed.

Lemma disabled_spec (now t : Z) :
  disabled now (Some t) = true ↔ (t < -2208988800000 ∨ now < t)%Z.
Proof.
  unfold disabled. rewrite Date_parse_1900. unfold date_lt, date_gt.
  rewrite orb_true_iff, !Z.ltb_lt. tauto.
Qed.

(** ** A form whose amount was never edited *)

Lemma zero_amount_invalid (d : FieldValues) :
  amount d = VNumber zero →
  values (zodResolver d) = None
  ∧ "amount"%string ∈ dom (errors (zodResolver d)).
Proof.
  intros Ham.
  assert ("amount"%string ∈ dom (errors (zodResolver d))) as Hin.
  { apply zodResolver_errors_dom. exists n_amount. split; [done|].
    cbn [rule]. rewrite Ham. by intros (x & [= <-] & Hgt). }
  split; [|done]. pose proof (zodResolver_values d) as H.
  destruct (values (zodResolver d)); [|done].
  destruct H as [_ He]. rewrite He in Hin. set_solver.
Qed.

Lemma untouched_step (st : State) (ev : Event) :
  edits_amount ev = false → untouched st → untouched (step st ev).
Proof.
  intros Hev [Ham Htr]. unfold step, untouched.
  destruct ev as [[u|] api| | | | |now day selected| | | |api];
    try discriminate Hev; cbn [handle]; try (split; done).
  - destruct (truthy_string u) eqn:Hu.
    + destruct (api u) as [e|fetched] eqn:Hapi.
      * rewrite (accountsEffect_failed _ _ _ _ Hu Hapi). cbn. split; [done|].
        apply Forall_app. split; [done|]. by repeat constructor.
      * rewrite (accountsEffect_fetched _ _ _ _ Hu Hapi). cbn. split; [done|].
        apply Forall_app. split; [done|]. by repeat constructor.
    + unfold accountsEffect. by rewrite Hu.
  - unfold onDayClick.
    destruct (disabled now (Some day)); [done|]. by destruct selected.
  - destruct (zero_amount_invalid _ Ham) as [Hv _].
    by rewrite (handleSubmit_invalid _ _ Hv).
Qed.

Lemma untouched_run (evs : list Event) (st : State) :
  forallb (λ ev, negb (edits_amount ev)) evs = true →
  untouched st → untouched (run evs st).
Proof.
  revert st. induction evs as [|ev evs IH]; intros st Hevs Hst; [done|].
  cbn in Hevs. apply andb_true_iff in Hevs as [Hev Hevs].
  apply negb_true_iff in Hev. cbn. apply IH; [done|].
  by apply untouched_step.
Qed.

(** C10.  A form opened without initial data has the amount 0.  As long as
    the amount is not edited, whatever else happens to the form, the
    amount stays 0, validation fails with an error under ["amount"], and
    no submission reaches the creation call. *)
Theorem untouched_amount_blocks_submission (now : Z) (evs : list Event) :
  forallb (λ ev, negb (edits_amount ev)) evs = true →
  amount (defaultValues now None) = VNumber zero
  ∧ amount (Component.form (run evs (mount now None))) = VNumber zero
  ∧ (validate (Component.form (run evs (mount now None)))).1 = false
  ∧ "amount"%string
    ∈ dom (validate (Component.form (run evs (mount now None)))).2
  ∧ Forall (λ e, is_CreateTransaction e = false)
      (Component.trace (run evs (mount now None))).
Proof.
  intros Hevs. split; [done|].
  destruct (untouched_run evs (mount now None) Hevs) as [Ham Htr].
  { split; [done|constructor]. }
  destruct (zero_amount_invalid _ Ham) as [_ Hin].
  split; [done|]. split; [|by split].
  unfold validate; cbn [fst]. apply bool_decide_eq_false. intros He.
  rewrite He in Hin. set_solver.
Qed.

Lemma untouched_amount_blocks_submission_witness :
  forallb (λ ev, negb (edits_amount ev)) session_without_amount = true
  ∧ (validate
       (Component.form (run session_without_amount (mount 1709337600000 None)))).1
    = false
  ∧ Forall (λ e, is_CreateTransaction e = false)
      (Component.trace (run session_without_amount (mount 1709337600000 None))).
Proof.
  split; [reflexivity|].
  pose proof (untouched_amount_blocks_submission 1709337600000
                session_without_amount eq_refl) as (_ & _ & Hv & _ & Htr).
  by split.
Defined.

(** ** Dates that reach the creation call *)



(** ** Calendar days *)

Lemma day1900_value : MakeDate day1900 0 = (-2208988800000)%Z.
Proof. reflexivity. Qed.





(** ** The scenarios of the specification *)

Example coffee_draft_valid : validate coffee_draft = (true, ∅).
Proof. vm_compute. reflexivity. Qed.

Example negative_amount_error :
  (validate negative_draft).1 = false
  ∧ dom (validate negative_draft).2 = {["amount"%string]}.
Proof. split; vm_compute; reflexivity. Qed.

Example negative_amount_no_call :
  Component.trace
    (handleSubmit (onSubmit created)
       (Component.mk [] None false expense negative_draft ∅ [])).2
  = [].
Proof. vm_compute. reflexivity. Qed.

Example NaN_amount_error :
  dom (validate (set n_amount (VNumber NaN) coffee_draft)).2
  = {["amount"%string]}.
Proof. vm_compute. reflexivity. Qed.

Example coffee_created :
  Component.trace
    (handleSubmit (onSubmit created)
       (Component.mk [] None false expense coffee_draft ∅ [])).2
  = [CreateTransaction (toRequest coffee_values);
     ToastSuccess "Transaction created successfully";
     RevalidatePath "/transactions"; CloseSheet].
Proof. vm_compute. reflexivity. Qed.

Example coffee_rejected :
  handleSubmit (onSubmit rejected)
    (Component.mk [] None false expense coffee_draft ∅ [])
  = (inr tt,
     Component.mk [] None false expense coffee_draft ∅
       [CreateTransaction (toRequest coffee_values);
        ToastError (VString "Account not found")]).
Proof. vm_compute. reflexivity. Qed.

Example no_default_account :
  account
    (Component.form
       (accountsEffect (λ _, inr [cash]) (Some "u1"%string)
          (mount 0 (Some coffee))).2)
  = VString "".
Proof. reflexivity. Qed.

(** ** The error entry of a field *)

Lemma parseErrorSchema_lookup (l : list ZodIssue) (m : gmap string FieldError)
    (k : string) :
  parseErrorSchema l m !! k =
    match m !! k with
    | Some e => Some e
    | None => mkFieldError <$> first_code k l
    end.
Proof.
  revert m. induction l as [|[path code] l IH]; intros m; cbn.
  - by destruct (m !! k).
  - destruct (String.eqb_spec path k) as [->|Hne].
    + destruct (m !! k) as [e|] eqn:Hk; rewrite IH.
      * by rewrite Hk.
      * by rewrite lookup_insert_eq.
    + destruct (m !! path) as [e|] eqn:Hp; rewrite IH; [done|].
      by rewrite lookup_insert_ne.
Qed.

Lemma first_code_app (k : string) (l1 l2 : list ZodIssue) :
  first_code k (l1 ++ l2) =
    match first_code k l1 with
    | Some c => Some c
    | None => first_code k l2
    end.
Proof.
  induction l1 as [|[path code] l1 IH]; cbn; [done|].
  by destruct (String.eqb path k).
Qed.

Lemma first_code_map (k k' : string) (l : list ZodIssueCode) :
  first_code k (map (pair k') l) = if String.eqb k' k then head l else None.
Proof.
  induction l as [|c l IH]; cbn.
  - by destruct (String.eqb k' k).
  - by destruct (String.eqb k' k).
Qed.

Lemma first_code_all_issues (n : FieldName) (d : FieldValues) :
  first_code (key n) (all_issues d) = head (field_issues n d).
Proof.
  unfold all_issues; cbn [all_fields map concat]. rewrite app_nil_r.
  rewrite !first_code_app, !first_code_map.
  destruct n; cbn [key String.eqb Ascii.eqb Bool.eqb];
    repeat match goal with
           | |- context [head ?l] =>
               lazymatch l with
               | field_issues _ _ => destruct l
               end
           end; reflexivity.
Qed.

(** The error entry of a field is the first issue its schema raises. *)
Lemma zodResolver_lookup (n : FieldName) (d : FieldValues) :
  errors (zodResolver d) !! key n = mkFieldError <$> head (field_issues n d).
Proof.
  unfold zodResolver. pose proof (formSchema_issues d) as H.
  destruct (formSchema d) as [v|l]; cbn [errors].
  - by rewrite lookup_empty, H.
  - destruct H as [-> _].
    by rewrite parseErrorSchema_lookup, lookup_empty, first_code_all_issues.
Qed.

Lemma field_issues_local (n : FieldName) (d d' : FieldValues) :
  get n d = get n d' → field_issues n d = field_issues n d'.
Proof. destruct n; cbn; by intros ->. Qed.

(** X1.  The error reported for a field depends on the value of that field
    only: two drafts that agree on a field get the same entry, or the same
    absence of an entry, under its key, whatever their other fields. *)
Theorem field_error_is_local (n : FieldName) (d d' : FieldValues) :
  get n d = get n d' →
  (validate d).2 !! key n = (validate d').2 !! key n.
Proof.
  intros Heq. unfold validate; cbn [snd].
  by rewrite !zodResolver_lookup, (field_issues_local n d d' Heq).
Qed.

Lemma field_error_is_local_witness :
  get n_amount negative_draft = get n_amount (set n_account VNull negative_draft)
  ∧ (validate negative_draft).2 !! "amount"%string
    = (validate (set n_account VNull negative_draft)).2 !! "amount"%string.
Proof.
  split; [reflexivity|].
  apply (field_error_is_local n_amount negative_draft
           (set n_account VNull negative_draft)).
  reflexivity.
Defined.

(** X2.  A field left undefined is reported as a type error that records
    [undefined] as the received type, for every field but the notes; the
    notes may be undefined without any error. *)
Theorem undefined_field_is_required (n : FieldName) (d : FieldValues) :
  get n d = VUndefined →
  (validate d).2 !! key n =
    if decide (n = n_notes) then None
    else Some (mkFieldError (invalid_type zt_undefined)).
Proof.
  intros Hu. unfold validate; cbn [snd]. rewrite zodResolver_lookup.
  destruct n; cbn in Hu; cbn [field_issues]; rewrite Hu; reflexivity.
Qed.

Lemma undefined_field_is_required_witness :
  get n_date (set n_date VUndefined coffee_draft) = VUndefined
  ∧ (validate (set n_date VUndefined coffee_draft)).2 !! "date"%string
    = Some (mkFieldError (invalid_type zt_undefined)).
Proof.
  split; [reflexivity|].
  apply (undefined_field_is_required n_date (set n_date VUndefined coffee_draft)).
  reflexivity.
Defined.

(** X3.  After the amount input changes, the entry under ["amount"] is
    decided by the parsed number alone: a type error recording NaN when the
    input does not parse, no error when the number is greater than 0, and
    a too-small error for every other number (0, negative numbers and
    negative infinity). *)
Theorem amount_edit_error (parsed : Number) (st : State) :
  (validate (Component.form (onChangeAmount parsed st).2)).2 !! "amount"%string
  = if isNaN parsed then Some (mkFieldError (invalid_type zt_nan))
    else if num_gt parsed zero then None
    else Some (mkFieldError too_small).
Proof.
  unfold validate; cbn [snd]. rewrite (zodResolver_lookup n_amount).
  unfold onChangeAmount. unfold_M. cbn.
  unfold s_amount, z.positive, z.number.
  destruct (isNaN parsed) eqn:Hnan; [done|].
  rewrite (num_le_zero_gt parsed Hnan). by destruct (num_gt parsed zero).
Qed.

(** ** Default values and validation *)

Lemma js_or_string (s fallback : string) :
  js_or (VString s) (VString fallback)
  = VString (if String.eqb s "" then fallback else s).
Proof. unfold js_or; cbn. by destruct (String.eqb s ""). Qed.

Lemma js_or_empty (s : string) : js_or (VString s) (VString "") = VString s.
Proof.
  rewrite js_or_string. destruct (String.eqb_spec s ""); by subst.
Qed.

(** The default values of a form opened on a transaction. *)
Lemma defaultValues_Some (now : Z) (t : Transaction.t) :
  defaultValues now (Some t) =
    {| account := VString (Transaction.UserAccountId t);
       type := VString (if String.eqb (Transaction.type t) ""
                        then "expense" else Transaction.type t);
       description := VString (Transaction.description t);
       category := VString (Transaction.category t);
       date := VDate (Some now);
       amount := VNumber (if truthy (VNumber (Transaction.amount t))
                          then Transaction.amount t else zero);
       notes := VString (match Transaction.notes t with
                         | Some s => s
                         | None => ""
                         end) |}.
Proof.
  unfold defaultValues; cbn [opt_chain]. rewrite !js_or_empty, js_or_string.
  f_equal.
  - unfold js_or. by destruct (truthy (VNumber (Transaction.amount t))).
  - destruct (Transaction.notes t) as [s|]; cbn [of_nullable];
      [apply js_or_empty|done].
Qed.

(** X4.  The default values never hold [undefined], [null], NaN or an
    invalid date, whatever the initial data: the account, type,
    description, category and notes are strings, the type is not empty, the
    date is the valid current date and the amount is a number that is not
    NaN. *)
Theorem defaultValues_well_typed (now : Z) (initialData : option Transaction.t) :
  ∃ a ty de c x no,
    defaultValues now initialData =
      mkFieldValues (VString a) (VString ty) (VString de) (VString c)
        (VDate (Some now)) (VNumber x) (VString no)
    ∧ ty ≠ ""%string ∧ isNaN x = false.
Proof.
  destruct initialData as [t|].
  - rewrite defaultValues_Some. do 6 eexists. split; [reflexivity|]. split.
    + destruct (String.eqb_spec (Transaction.type t) ""); done.
    + by destruct (Transaction.amount t).
  - by do 6 eexists.
Qed.

Lemma positive_number_default (x : Number) :
  positive_number (VNumber (if truthy (VNumber x) then x else zero))
  ↔ num_gt x zero = true.
Proof.
  unfold positive_number. split.
  - intros (y & [= <-] & Hgt). by destruct x as [[]|[]| |[] m e].
  - intros Hgt. exists x. split; [|done]. by destruct x as [[]|[]| |[] m e].
Qed.

Lemma defaultValues_rules (now : Z) (initialData : option Transaction.t) :
  (∀ n, rule n (defaultValues now initialData))
  ↔ ∃ t, initialData = Some t ∧ complete t.
Proof.
  destruct initialData as [t|].
  - rewrite defaultValues_Some. split.
    + intros H. exists t. split; [done|].
      pose proof (H n_account) as (a & [= <-] & Ha).
      pose proof (H n_type) as (ty & [= <-] & Hty).
      pose proof (H n_description) as (de & [= <-] & Hde).
      pose proof (H n_category) as (c & [= <-] & Hc).
      pose proof (proj1 (positive_number_default _) (H n_amount)) as Ham.
      split; [done|]. split; [|done].
      destruct (String.eqb_spec (Transaction.type t) "") as [Hty'|_].
      * rewrite Hty'. by left.
      * by right.
    + intros (t' & [= <-] & Ha & Hty & Hde & Hc & Ham).
      intros []; cbn [rule account type description category date amount notes].
      * by eexists.
      * eexists. split; [done|].
        destruct (String.eqb_spec (Transaction.type t) "") as [_|Hne];
          [by left|]. by destruct Hty as [Hty|Hty].
      * by eexists.
      * by eexists.
      * by eexists.
      * by apply positive_number_default.
      * right. by eexists.
  - split; [|by intros (t & [=] & _)].
    intros H. by destruct (H n_account) as (a & [= <-] & Ha).
Qed.

(** X5.  The default values pass validation exactly when the form is
    opened on a transaction with a non-empty account, description and
    category, a type that is empty, ["expense"] or ["income"], and an
    amount greater than 0; a form opened without initial data never
    does. *)
Theorem defaultValues_valid_iff (now : Z) (initialData : option Transaction.t) :
  (validate (defaultValues now initialData)).1 = true
  ↔ ∃ t, initialData = Some t ∧ complete t.
Proof.
  unfold validate; cbn [fst]. rewrite bool_decide_eq_true, zodResolver_valid.
  apply defaultValues_rules.
Qed.

(** ** What the handlers emit *)

(** The three ways [onSubmit] can go. *)
Lemma onSubmit_outcomes (createTransaction : Request.t → Exn + Response)
    (values : Parsed.t) (st : State) :
  ∃ emitted,
    onSubmit createTransaction values st =
      (inr tt,
       with_trace st
         (Component.trace st
          ++ CreateTransaction (toRequest values) :: emitted))
    ∧ (emitted = [ToastSuccess "Transaction created successfully";
                  RevalidatePath "/transactions"; CloseSheet]
       ∨ (∃ message, emitted = [ToastError message])
       ∨ (∃ e, emitted = [ConsoleError "Error submitting transaction:" e])).
Proof.
  unfold onSubmit. unfold_M.
  destruct (createTransaction (toRequest values))
    as [e|[[| |b|x|str|d]|s e]];
    [| | | | | | |destruct (truthy s); [|destruct (truthy e)]];
    eexists; (split;
      [unfold with_trace; cbn; rewrite <- ?app_assoc; reflexivity|]);
    eauto.
Qed.

Lemma count_app (p : Effect → bool) (t1 t2 : list Effect) :
  count p (t1 ++ t2) = count p t1 + count p t2.
Proof. unfold count. by rewrite List.filter_app, length_app. Qed.

Lemma balanced_app (t1 t2 : list Effect) :
  balanced t1 → balanced t2 → balanced (t1 ++ t2).
Proof.
  unfold balanced. rewrite !count_app. lia.
Qed.

Lemma adds_nothing (ev : Event) : is_Submit ev = false →
  calls_accounts ev = false → adds ev [].
Proof. intros Hs Hc. unfold adds, balanced. rewrite Hs, Hc. cbn. lia. Qed.

(** Every handler returns normally and only appends to the trace. *)
Lemma handle_spec (ev : Event) (st : State) :
  ∃ new,
    (handle ev st).1 = inr tt
    ∧ Component.trace (handle ev st).2 = Component.trace st ++ new
    ∧ adds ev new.
Proof.
  destruct ev as [[u|] api| | | | |now day selected| | | |api];
    cbn [handle];
    try (exists []; rewrite app_nil_r;
         split; [done|split; [done|by apply adds_nothing]]).
  - destruct (truthy_string u) eqn:Hu.
    + destruct (api u) as [e|fetched] eqn:Hapi.
      * rewrite (accountsEffect_failed _ _ _ _ Hu Hapi). eexists.
        split; [done|]. split; [done|].
        unfold adds, balanced; cbn. rewrite Hu. cbn. lia.
      * rewrite (accountsEffect_fetched _ _ _ _ Hu Hapi). eexists.
        split; [done|]. split; [done|].
        unfold adds, balanced; cbn. rewrite Hu. cbn. lia.
    + exists []. rewrite app_nil_r. unfold accountsEffect. rewrite Hu.
      split; [done|]. split; [done|]. apply adds_nothing; [done|].
      by cbn.
  - exists []. rewrite app_nil_r. unfold onDayClick.
    destruct (disabled now (Some day)); [|destruct selected];
      (split; [done|split; [done|by apply adds_nothing]]).
  - destruct (values (zodResolver (Component.form st))) as [v|] eqn:Hv.
    + rewrite (handleSubmit_valid _ _ _ Hv).
      destruct (onSubmit_outcomes api v
                  (Component.mk (Component.accounts st)
                     (Component.defaultAccount st) (Component.showCalendar st)
                     (Component.type st) (Component.form st) ∅
                     (Component.trace st))) as (emitted & -> & Hem).
      eexists. split; [done|]. split; [done|].
      destruct Hem as [->|[(m & ->)|(e & ->)]];
        unfold adds, balanced; cbn; lia.
    + rewrite (handleSubmit_invalid _ _ Hv). exists []. rewrite app_nil_r.
      split; [done|]. split; [done|]. unfold adds, balanced; cbn. lia.
Qed.

(** X6.  No handler lets an exception escape: whatever the remote calls do,
    every event of the form is handled and returns normally. *)
Theorem handlers_never_throw (ev : Event) (st : State) :
  (handle ev st).1 = inr tt.
Proof. by destruct (handle_spec ev st) as (new & H & _). Qed.

Lemma run_spec (evs : list Event) (st : State) :
  ∃ new,
    Component.trace (run evs st) = Component.trace st ++ new
    ∧ balanced new
    ∧ count is_GetAllUserAccountsByUserId new
      = length (List.filter calls_accounts evs)
    ∧ (count is_CreateTransaction new ≤ length (List.filter is_Submit evs))%nat
    ∧ (count is_fetch_log new ≤ count is_GetAllUserAccountsByUserId new)%nat.
Proof.
  revert st. induction evs as [|ev evs IH]; intros st.
  - exists []. rewrite app_nil_r. split; [done|]. unfold balanced. cbn. lia.
  - cbn [run fold_left]. fold (run evs (step st ev)).
    destruct (IH (step st ev)) as (new2 & -> & Hb2 & Hg2 & Hc2 & Hf2).
    destruct (handle_spec ev st) as (new1 & _ & Htr & Hb1 & Hg1 & Hc1 & Hf1).
    unfold step at 1. rewrite Htr. exists (new1 ++ new2).
    rewrite <- app_assoc. split; [done|]. split; [by apply balanced_app|].
    rewrite !count_app. cbn [List.filter].
    destruct (calls_accounts ev), (is_Submit ev); cbn [b2n length] in *; lia.
Qed.

(** X7.  In every run of the form there are as many creation calls as
    pieces of feedback about one: each call is answered by exactly one of a
    success notification, an error notification or a logged exception.
    The listing is revalidated and the sheet closed once per success
    notification and never otherwise. *)
Theorem feedback_accounting (now : Z) (initialData : option Transaction.t)
    (evs : list Event) :
  balanced (Component.trace (run evs (mount now initialData))).
Proof.
  destruct (run_spec evs (mount now initialData)) as (new & -> & Hb & _).
  by cbn.
Qed.

(** X8.  In every run of the form the accounts are fetched once for each
    run of the effect with a non-empty user id and never otherwise; there
    are at most as many creation calls as submit events, and at most as
    many logged fetch errors as fetches. *)
Theorem remote_calls_accounting (now : Z) (initialData : option Transaction.t)
    (evs : list Event) :
  count is_GetAllUserAccountsByUserId
    (Component.trace (run evs (mount now initialData)))
  = length (List.filter calls_accounts evs)
  ∧ (count is_CreateTransaction
       (Component.trace (run evs (mount now initialData)))
     ≤ length (List.filter is_Submit evs))%nat
  ∧ (count is_fetch_log (Component.trace (run evs (mount now initialData)))
     ≤ count is_GetAllUserAccountsByUserId
         (Component.trace (run evs (mount now initialData))))%nat.
Proof.
  destruct (run_spec evs (mount now initialData))
    as (new & -> & _ & Hg & Hc & Hf).
  by cbn.
Qed.

(** ** Submitting *)

Lemma validate_true (d : FieldValues) :
  (validate d).1 = true ↔ ∃ v, values (zodResolver d) = Some v.
Proof.
  unfold validate; cbn [fst]. rewrite bool_decide_eq_true.
  pose proof (zodResolver_values d) as H.
  destruct (values (zodResolver d)) as [v|].
  - split; [by eauto|]. intros _. apply H.
  - split; [done|]. by intros (v & [=]).
Qed.

Lemma validate_false (d : FieldValues) :
  values (zodResolver d) = None → (validate d).1 = false.
Proof.
  intros Hv. apply not_true_iff_false. rewrite validate_true, Hv.
  by intros (v & [=]).
Qed.

(** A submit changes the errors and the trace only. *)
Lemma handleSubmit_frame (createTransaction : Request.t → Exn + Response)
    (st : State) :
  ∃ errs new,
    (handleSubmit (onSubmit createTransaction) st).2 =
      Component.mk (Component.accounts st) (Component.defaultAccount st)
        (Component.showCalendar st) (Component.type st) (Component.form st)
        errs (Component.trace st ++ new).
Proof.
  destruct (values (zodResolver (Component.form st))) as [v|] eqn:Hv.
  - rewrite (handleSubmit_valid _ _ _ Hv).
    match goal with
    | |- context [onSubmit createTransaction v ?s] =>
        destruct (onSubmit_calls_first createTransaction v s)
          as (rest & -> & _)
    end.
    by do 2 eexists.
  - rewrite (handleSubmit_invalid _ _ Hv). exists
      (errors (zodResolver (Component.form st))), []. by rewrite app_nil_r.
Qed.

(** X9.  A submit never changes the draft or the other hooks, whatever the
    creation call does: afterwards the form values are what they were, the
    form's errors are those of the validation of these values, and exactly
    one creation call has been made if they are valid and none if they are
    not. *)
Theorem submit_preserves_form
    (createTransaction : Request.t → Exn + Response) (st : State) :
  Component.form (handleSubmit (onSubmit createTransaction) st).2
  = Component.form st
  ∧ same_hooks st (handleSubmit (onSubmit createTransaction) st).2
  ∧ Component.errors (handleSubmit (onSubmit createTransaction) st).2
    = (validate (Component.form st)).2
  ∧ ∃ new,
      Component.trace (handleSubmit (onSubmit createTransaction) st).2
      = Component.trace st ++ new
      ∧ count is_CreateTransaction new
        = b2n (validate (Component.form st)).1.
Proof.
  destruct (values (zodResolver (Component.form st))) as [v|] eqn:Hv.
  - rewrite (proj2 (validate_true _) (ex_intro _ v Hv)).
    pose proof (zodResolver_values (Component.form st)) as H.
    rewrite Hv in H. destruct H as [_ He].
    rewrite (handleSubmit_valid _ _ _ Hv).
    destruct (onSubmit_calls_first createTransaction v
                (Component.mk (Component.accounts st)
                   (Component.defaultAccount st) (Component.showCalendar st)
                   (Component.type st) (Component.form st) ∅
                   (Component.trace st))) as (rest & -> & Hrest).
    unfold validate, same_hooks; cbn. rewrite He.
    repeat (split; [done|]). eexists. split; [done|].
    unfold count; cbn. f_equal.
    induction Hrest as [|e rest He' _ IH]; cbn; [done|]. by rewrite He'.
  - rewrite (validate_false _ Hv), (handleSubmit_invalid _ _ Hv).
    unfold validate, same_hooks; cbn. repeat (split; [done|]).
    exists []. by rewrite app_nil_r.
Qed.

(** X10.  Submitting does not clear or lock the form: when the values are
    valid, a second submit right after the first sends the same request
    again, whatever the first call did. *)
Theorem resubmission_repeats_request
    (first second : Request.t → Exn + Response) (st : State) :
  (validate (Component.form st)).1 = true →
  ∃ request t1 t2,
    Component.trace (run [Submit first; Submit second] st)
    = Component.trace st
      ++ CreateTransaction request :: t1 ++ CreateTransaction request :: t2
    ∧ of_request request = Component.form st
    ∧ Forall (λ e, is_CreateTransaction e = false) (t1 ++ t2).
Proof.
  intros Hvalid. apply validate_true in Hvalid as (v & Hv).
  pose proof (zodResolver_values (Component.form st)) as H.
  rewrite Hv in H. destruct H as [Hparse _].
  unfold run; cbn [fold_left]; unfold step; cbn [handle].
  rewrite (handleSubmit_valid _ _ _ Hv).
  destruct (onSubmit_calls_first first v
              (Component.mk (Component.accounts st)
                 (Component.defaultAccount st) (Component.showCalendar st)
                 (Component.type st) (Component.form st) ∅
                 (Component.trace st))) as (t1 & -> & Ht1).
  cbn [snd]. rewrite (handleSubmit_valid _ _ v); [|exact Hv].
  match goal with
  | |- context [onSubmit second v ?s] =>
      destruct (onSubmit_calls_first second v s) as (t2 & -> & Ht2)
  end.
  exists (toRequest v), t1, t2. cbn. rewrite <- app_assoc. cbn.
  split; [done|]. split; [by apply formSchema_inl|]. by apply Forall_app.
Qed.

Lemma resubmission_repeats_request_witness :
  (validate coffee_draft).1 = true
  ∧ ∃ request t1 t2,
      Component.trace
        (run [Submit unreachable; Submit rejected]
           (Component.mk [] None false expense coffee_draft ∅ []))
      = CreateTransaction request :: t1 ++ CreateTransaction request :: t2
      ∧ of_request request = coffee_draft
      ∧ Forall (λ e, is_CreateTransaction e = false) (t1 ++ t2).
Proof.
  split; [vm_compute; reflexivity|].
  apply (resubmission_repeats_request unreachable rejected
           (Component.mk [] None false expense coffee_draft ∅ [])).
  vm_compute; reflexivity.
Defined.

(** X11.  Validation does not tie the category to the type: from a valid
    draft, choosing an expense category that is not an income category and
    then clicking Income gives a form in which that category can no longer
    be chosen, and yet a submit sends it, with the type ["income"]. *)
Theorem mismatched_category_is_submitted
    (EXPENSE_CATEGORIES_KEYS INCOME_CATEGORIES_KEYS : list string)
    (EXPENSE_CATEGORIES INCOME_CATEGORIES : gmap string string)
    (createTransaction : Request.t → Exn + Response) (st : State)
    (c : string) :
  (validate (Component.form st)).1 = true →
  c ≠ ""%string →
  In c EXPENSE_CATEGORIES_KEYS →
  ¬ In c INCOME_CATEGORIES_KEYS →
  ¬ In c (selectableCategories EXPENSE_CATEGORIES_KEYS INCOME_CATEGORIES_KEYS
            EXPENSE_CATEGORIES INCOME_CATEGORIES
            (run [ChangeCategory c; ClickIncome] st))
  ∧ ∃ request rest,
      Component.trace
        (run [ChangeCategory c; ClickIncome; Submit createTransaction] st)
      = Component.trace st ++ CreateTransaction request :: rest
      ∧ Request.type request = "income"%string
      ∧ Request.category request = c.
Proof.
  intros Hvalid Hc Hexp Hinc. split.
  - unfold selectableCategories, categoryItems. cbn.
    by rewrite map_map, map_id.
  - unfold validate in Hvalid; cbn [fst] in Hvalid.
    apply bool_decide_eq_true in Hvalid.
    pose proof (proj1 (zodResolver_valid _) Hvalid) as Hall.
    set (d := set n_type (VString "income")
                (set n_category (VString c) (Component.form st))).
    assert (∀ n, rule n d) as Hrules.
    { intros n. pose proof (Hall n) as Hn.
      destruct n; cbn in Hn |- *; try done.
      - exists "income"%string. split; [done|]. right. by left.
      - by exists c. }
    apply (proj2 (zodResolver_valid _)) in Hrules.
    pose proof (zodResolver_values d) as H.
    destruct (values (zodResolver d)) as [v|] eqn:Hv; [|done].
    destruct H as [Hparse _]. apply formSchema_inl in Hparse.
    unfold run; cbn [fold_left]; unfold step; cbn [handle].
    unfold onClickIncome. unfold_M. cbn [snd].
    match goal with
    | |- context [handleSubmit ?h ?s] =>
        rewrite (handleSubmit_valid h s v); [|exact Hv];
        destruct (onSubmit_calls_first createTransaction v
                    (Component.mk (Component.accounts s)
                       (Component.defaultAccount s) (Component.showCalendar s)
                       (Component.type s) (Component.form s) ∅
                       (Component.trace s))) as (rest & -> & _)
    end.
    exists (toRequest v), rest. split; [done|].
    assert (type (of_request (toRequest v)) = type d) as Hty
      by by rewrite Hparse.
    assert (category (of_request (toRequest v)) = category d) as Hcat
      by by rewrite Hparse.
    subst d. cbn in Hty, Hcat. cbn. split; congruence.
Qed.

Lemma mismatched_category_is_submitted_witness :
  (validate coffee_draft).1 = true
  ∧ "food"%string ≠ ""%string
  ∧ In "food"%string ["food"%string; "rent"%string]
  ∧ ¬ In "food"%string ["salary"%string]
  ∧ ∃ request rest,
      Component.trace
        (run [ChangeCategory "food"; ClickIncome; Submit created]
           (Component.mk [] None false expense coffee_draft ∅ []))
      = CreateTransaction request :: rest
      ∧ Request.type request = "income"%string
      ∧ Request.category request = "food"%string.
Proof.
  assert ((validate coffee_draft).1 = true) as Hv by (vm_compute; reflexivity).
  assert ("food"%string ≠ ""%string) as Hne by discriminate.
  assert (In "food"%string ["food"%string; "rent"%string]) as Hin by (by left).
  assert (¬ In "food"%string ["salary"%string]) as Hnot
    by (intros [[=]|[]]).
  repeat (split; [assumption|]).
  apply (proj2 (mismatched_category_is_submitted
                  ["food"%string; "rent"%string] ["salary"%string] ∅ ∅ created
                  (Component.mk [] None false expense coffee_draft ∅ [])
                  "food"%string Hv Hne Hin Hnot)).
Defined.

Lemma of_request_inj (r r' : Request.t) :
  of_request r = of_request r' → r = r'.
Proof.
  destruct r as [a ty de c da am no], r' as [a' ty' de' c' da' am' no'].
  unfold of_request; cbn. intros [= -> -> -> -> -> -> Hno]. f_equal.
  destruct no, no'; by inversion Hno.
Qed.

(** The form values of an unedited form after the accounts effect. *)
Lemma unedited_form (getAll : string → Exn + list Account)
    (userId : option string) (now : Z) (t : Transaction.t) :
  Component.form (accountsEffect getAll userId (mount now (Some t))).2
  = set n_account (VString (account_after_effect getAll userId t))
      (defaultValues now (Some t)).
Proof.
  unfold account_after_effect.
  assert (set n_account (VString (Transaction.UserAccountId t))
            (defaultValues now (Some t)) = defaultValues now (Some t)) as Hid
    by by rewrite defaultValues_Some.
  destruct userId as [u|]; [|by rewrite Hid].
  destruct (truthy_string u) eqn:Hu.
  - destruct (getAll u) as [e|fetched] eqn:Hget.
    + by rewrite (accountsEffect_failed _ _ _ _ Hu Hget), Hid.
    + by rewrite (accountsEffect_fetched _ _ _ _ Hu Hget).
  - unfold accountsEffect. by rewrite Hu, Hid.
Qed.

(** X12.  The form only ever creates.  Submitting a form opened on a
    complete transaction, once the accounts effect has run and without any
    edit, calls the creation API with that transaction's description,
    category and amount, its type (or ["expense"] if it has none), its
    notes (or the empty string) and the time the form was opened as the
    date; the account sent is the id of the default account when the
    accounts were fetched, and the transaction's own account only when
    there was no fetch or it failed.  When the accounts were fetched and
    none is the default, the account is empty and the submit sends
    nothing. *)
Theorem unedited_transaction_is_created_anew
    (createTransaction : Request.t → Exn + Response)
    (getAll : string → Exn + list Account) (userId : option string)
    (now : Z) (t : Transaction.t) :
  complete t →
  account (Component.form (accountsEffect getAll userId (mount now (Some t))).2)
  = VString (account_after_effect getAll userId t)
  ∧ (account_after_effect getAll userId t = ""%string →
     Component.trace
       (handleSubmit (onSubmit createTransaction)
          (accountsEffect getAll userId (mount now (Some t))).2).2
     = Component.trace (accountsEffect getAll userId (mount now (Some t))).2)
  ∧ (account_after_effect getAll userId t ≠ ""%string →
     ∃ rest,
       Component.trace
         (handleSubmit (onSubmit createTransaction)
            (accountsEffect getAll userId (mount now (Some t))).2).2
       = Component.trace (accountsEffect getAll userId (mount now (Some t))).2
         ++ CreateTransaction
              (request_anew (account_after_effect getAll userId t) now t)
            :: rest).
Proof.
  intros Hc. pose proof (unedited_form getAll userId now t) as Hform.
  set (st := (accountsEffect getAll userId (mount now (Some t))).2) in *.
  set (a := account_after_effect getAll userId t) in *.
  split; [by rewrite Hform|].
  pose proof (zodResolver_values (Component.form st)) as H.
  split.
  - intros Ha.
    destruct (values (zodResolver (Component.form st))) as [v|] eqn:Hv.
    + destruct H as [_ He].
      pose proof (proj1 (zodResolver_valid _) He n_account) as (s & Hs & Hne).
      rewrite Hform in Hs. cbn in Hs. congruence.
    + by rewrite (handleSubmit_invalid _ _ Hv).
  - intros Ha.
    assert (∀ n, rule n (Component.form st)) as Hrules.
    { rewrite Hform. intros n.
      pose proof (proj2 (defaultValues_rules now (Some t))
                    (ex_intro _ t (conj eq_refl Hc)) n) as Hn.
      destruct n; cbn in Hn |- *; try done. by exists a. }
    apply (proj2 (zodResolver_valid _)) in Hrules.
    destruct (values (zodResolver (Component.form st))) as [v|] eqn:Hv;
      [|done].
    destruct H as [Hparse _]. apply formSchema_inl in Hparse.
    rewrite (handleSubmit_valid _ _ v); [|exact Hv].
    match goal with
    | |- context [onSubmit createTransaction v ?s] =>
        destruct (onSubmit_calls_first createTransaction v s)
          as (rest & -> & _)
    end.
    exists rest. cbn [snd with_trace Component.trace].
    assert (toRequest v = request_anew a now t) as ->; [|done].
    apply of_request_inj.
    rewrite Hparse, Hform, defaultValues_Some.
    destruct Hc as (_ & _ & _ & _ & Ham).
    assert (truthy (VNumber (Transaction.amount t)) = true) as ->
      by by destruct (Transaction.amount t) as [[]|[]| |[] m e].
    reflexivity.
Qed.

Lemma unedited_transaction_is_created_anew_witness :
  complete coffee
  ∧ account_after_effect accounts_found (Some "u1"%string) coffee
    = "a2"%string
  ∧ ∃ rest,
      Component.trace
        (handleSubmit (onSubmit created)
           (accountsEffect accounts_found (Some "u1"%string)
              (mount 1709337600000 (Some coffee))).2).2
      = Component.trace
          (accountsEffect accounts_found (Some "u1"%string)
             (mount 1709337600000 (Some coffee))).2
        ++ CreateTransaction (request_anew "a2" 1709337600000 coffee) :: rest.
Proof.
  assert (complete coffee) as Hc.
  { repeat split; try discriminate. right. by left. }
  split; [exact Hc|]. split; [reflexivity|].
  apply (proj2 (proj2 (unedited_transaction_is_created_anew created
                         accounts_found (Some "u1"%string) 1709337600000
                         coffee Hc))).
  discriminate.
Defined.

(** ** The type shown and the type submitted *)

Lemma in_sync_step (st : State) (ev : Event) :
  in_sync st → in_sync (step st ev).
Proof.
  unfold in_sync, step. intros Hs.
  destruct ev as [[u|] api| | | | |now day selected| | | |api];
    cbn [handle]; try done.
  - destruct (truthy_string u) eqn:Hu.
    + destruct (api u) as [e|fetched] eqn:Hapi.
      * by rewrite (accountsEffect_failed _ _ _ _ Hu Hapi).
      * by rewrite (accountsEffect_fetched _ _ _ _ Hu Hapi).
    + unfold accountsEffect. by rewrite Hu.
  - unfold onDayClick.
    destruct (disabled now (Some day)); [done|]. by destruct selected.
  - by destruct (handleSubmit_frame api st) as (errs & new & ->).
Qed.

Lemma in_sync_run (evs : list Event) (st : State) :
  in_sync st → in_sync (run evs st).
Proof.
  revert st. induction evs as [|ev evs IH]; intros st Hs; [done|].
  cbn. by apply IH, in_sync_step.
Qed.

(** X13.  Once a type button has been clicked, the form's type is the type
    the buttons and the category list show, and it stays so: no later
    event sets one without the other. *)
Theorem type_click_synchronises (evs : list Event) (st : State) :
  existsb clicks_type evs = true → in_sync (run evs st).
Proof.
  revert st. induction evs as [|ev evs IH]; intros st Hex; [done|].
  cbn in Hex. cbn [run fold_left]. fold (run evs (step st ev)).
  destruct (clicks_type ev) eqn:Hev.
  - apply in_sync_run. by destruct ev.
  - by apply IH.
Qed.

Lemma type_click_synchronises_witness :
  existsb clicks_type [ClickIncome; ChangeDescription "Salary"] = true
  ∧ in_sync
      (run [ClickIncome; ChangeDescription "Salary"] (mount 0 (Some coffee))).
Proof.
  split; [reflexivity|].
  apply (type_click_synchronises [ClickIncome; ChangeDescription "Salary"]
           (mount 0 (Some coffee))).
  reflexivity.
Defined.

(** X14.  When the form opens, the buttons and the category list show
    Expense whatever the initial data; they agree with the form's type
    exactly when there is no initial data or its type is empty or
    ["expense"].  A form opened on an income transaction, for one, lists
    the expense categories. *)
Theorem mount_in_sync_iff (now : Z) (initialData : option Transaction.t) :
  Component.type (mount now initialData) = expense
  ∧ (in_sync (mount now initialData)
     ↔ match initialData with
       | None => True
       | Some t =>
           Transaction.type t = ""%string
           ∨ Transaction.type t = "expense"%string
       end).
Proof.
  split; [done|]. unfold in_sync. destruct initialData as [t|]; [|done].
  cbn [mount Component.form Component.type]. rewrite defaultValues_Some.
  cbn [type type_name].
  destruct (String.eqb_spec (Transaction.type t) "") as [Hty|Hty].
  - split; [by left|done].
  - split; [intros [= ->]; by right|]. by intros [? | ->].
Qed.

(** ** The accounts *)

Lemma default_is_found_step (st : State) (ev : Event) :
  Component.defaultAccount st = find isDefault (Component.accounts st) →
  Component.defaultAccount (step st ev)
  = find isDefault (Component.accounts (step st ev)).
Proof.
  unfold step. intros Hs.
  destruct ev as [[u|] api| | | | |now day selected| | | |api];
    cbn [handle]; try done.
  - destruct (truthy_string u) eqn:Hu.
    + destruct (api u) as [e|fetched] eqn:Hapi.
      * by rewrite (accountsEffect_failed _ _ _ _ Hu Hapi).
      * by rewrite (accountsEffect_fetched _ _ _ _ Hu Hapi).
    + unfold accountsEffect. by rewrite Hu.
  - unfold onDayClick.
    destruct (disabled now (Some day)); [done|]. by destruct selected.
  - by destruct (handleSubmit_frame api st) as (errs & new & ->).
Qed.

(** X15.  In every state the form can reach, the default account is the
    first account of the list whose [isDefault] is true: when there is one
    it is among the items of the account select, and when there is none
    no account of the list is a default. *)
Theorem default_account_is_first_default (now : Z)
    (initialData : option Transaction.t) (evs : list Event) :
  Component.defaultAccount (run evs (mount now initialData))
  = find isDefault (Component.accounts (run evs (mount now initialData)))
  ∧ match Component.defaultAccount (run evs (mount now initialData)) with
    | Some a =>
        isDefault a = true
        ∧ In (id a, name a) (accountItems (run evs (mount now initialData)))
    | None =>
        ∀ b, In b (Component.accounts (run evs (mount now initialData))) →
             isDefault b = false
    end.
Proof.
  assert (Component.defaultAccount (run evs (mount now initialData))
          = find isDefault
              (Component.accounts (run evs (mount now initialData)))) as Hf.
  { generalize (mount now initialData) (eq_refl :
      Component.defaultAccount (mount now initialData)
      = find isDefault (Component.accounts (mount now initialData))).
    induction evs as [|ev evs IH]; intros st Hst; [done|].
    cbn. by apply IH, default_is_found_step. }
  split; [done|]. rewrite Hf.
  destruct (find isDefault _) as [a|] eqn:Hfind.
  - apply find_some in Hfind as [Hin Hd]. split; [done|].
    unfold accountItems. apply in_map_iff. by exists a.
  - intros b Hb. by apply (List.find_none _ _ Hfind).
Qed.

Lemma account_shown_step (st : State) (ev : Event) :
  selects_no_account ev = false → account_shown st →
  account_shown (step st ev).
Proof.
  unfold step, account_shown. intros Hev Hs.
  destruct ev as [[u|] api| | | | |now day selected|s| | |api];
    cbn [handle]; try done.
  - destruct (truthy_string u) eqn:Hu.
    + destruct (api u) as [e|fetched] eqn:Hapi.
      * by rewrite (accountsEffect_failed _ _ _ _ Hu Hapi).
      * rewrite (accountsEffect_fetched _ _ _ _ Hu Hapi). cbn.
        eexists. split; [done|]. by destruct (find isDefault fetched).
    + unfold accountsEffect. by rewrite Hu.
  - unfold onDayClick.
    destruct (disabled now (Some day)); [done|]. by destruct selected.
  - cbn. exists s. split; [done|]. intros ->. done.
  - by destruct (handleSubmit_frame api st) as (errs & new & ->).
Qed.

(** X16.  The account select shows the account the form holds: in every
    state reached without selecting an account whose id is empty, the
    value given to the select is the form's account, so the account that is
    displayed is the one a submit validates and sends. *)
Theorem account_select_shows_form_value (now : Z)
    (initialData : option Transaction.t) (evs : list Event) :
  forallb (λ ev, negb (selects_no_account ev)) evs = true →
  accountSelectValue (run evs (mount now initialData))
  = account (Component.form (run evs (mount now initialData))).
Proof.
  intros Hevs.
  assert (account_shown (run evs (mount now initialData))) as (s & Hs & Hd).
  { assert (account_shown (mount now initialData)) as Hst.
    { destruct initialData as [t|].
      - unfold account_shown, mount; cbn [Component.form Component.defaultAccount].
        rewrite defaultValues_Some. by eexists.
      - by exists ""%string. }
    revert Hevs Hst. generalize (mount now initialData) as st.
    induction evs as [|ev evs IH]; intros st Hevs Hst; [done|].
    cbn in Hevs. apply andb_true_iff in Hevs as [Hev Hevs].
    apply negb_true_iff in Hev. cbn. apply IH; [done|].
    by apply account_shown_step. }
  unfold accountSelectValue. rewrite Hs.
  destruct (String.eqb_spec s "") as [->|Hne].
  - specialize (Hd eq_refl).
    destruct (Component.defaultAccount _) as [a|]; [|done]. by rewrite Hd.
  - unfold js_or; cbn. by rewrite (proj2 (String.eqb_neq s "") Hne).
Qed.

Lemma account_select_shows_form_value_witness :
  forallb (λ ev, negb (selects_no_account ev))
    [AccountsEffect (Some "u1"%string) accounts_found; ChangeAccount "a3"]
  = true
  ∧ accountSelectValue
      (run [AccountsEffect (Some "u1"%string) accounts_found;
            ChangeAccount "a3"] (mount 0 None))
    = VString "a3".
Proof.
  split; [reflexivity|].
  rewrite (account_select_shows_form_value 0 None
             [AccountsEffect (Some "u1"%string) accounts_found;
              ChangeAccount "a3"] eq_refl).
  reflexivity.
Defined.

(** ** More on the date picker *)

(** X17.  The range of selectable dates only grows with time: a date that
    is enabled at one time is enabled at every later time, and the date the
    form starts with, the time it was opened, is enabled from then on when
    that time is not before 1900. *)
Theorem enabled_dates_stay_enabled (now later t : Z) :
  (now ≤ later)%Z →
  (disabled now (Some t) = false → disabled later (Some t) = false)
  ∧ ((-2208988800000 ≤ now)%Z →
     ∀ initialData,
       date (Component.form (mount now initialData)) = VDate (Some now)
       ∧ disabled later (Some now) = false).
Proof.
  intros Hle. split.
  - rewrite <- !not_true_iff_false, !disabled_spec. lia.
  - intros Hnow initialData. split; [done|].
    rewrite <- not_true_iff_false, disabled_spec. lia.
Qed.

Lemma enabled_dates_stay_enabled_witness :
  (1709251200000 ≤ 1709337600000)%Z
  ∧ disabled 1709251200000 (Some 1709251200000%Z) = false
  ∧ disabled 1709337600000 (Some 1709251200000%Z) = false.
Proof.
  assert (1709251200000 ≤ 1709337600000)%Z as Hle by lia.
  split; [exact Hle|]. split; [reflexivity|].
  apply (proj1 (enabled_dates_stay_enabled 1709251200000 1709337600000
                  1709251200000 Hle)).
  reflexivity.
Defined.

(** X18.  When the clock reads a time before 1900, every day of the
    calendar is disabled and a click on any of them changes nothing; a
    date that is invalid is never disabled. *)
Theorem no_date_selectable_before_1900 (now : Z) :
  (now < -2208988800000)%Z →
  (∀ t, disabled now (Some t) = true)
  ∧ (∀ t selected st, onDayClick now t selected st = (inr tt, st))
  ∧ disabled now None = false.
Proof.
  intros Hnow.
  assert (∀ t, disabled now (Some t) = true) as Hd.
  { intros t. apply disabled_spec. lia. }
  split; [done|]. split; [|done].
  intros t selected st. unfold onDayClick. by rewrite Hd.
Qed.

Lemma no_date_selectable_before_1900_witness :
  (-2208988800001 < -2208988800000)%Z
  ∧ disabled (-2208988800001) (Some (-2208988800001)%Z) = true.
Proof.
  assert (-2208988800001 < -2208988800000)%Z as Hlt by lia.
  split; [exact Hlt|].
  apply (proj1 (no_date_selectable_before_1900 (-2208988800001) Hlt)).
Defined.

(** X19.  When the calendar reports that the selection was cleared, the
    popover closes and the form's date becomes [undefined]; validation then
    reports the date as missing, and a submit makes no creation call and
    emits nothing. *)
Theorem cleared_date_blocks_submission
    (createTransaction : Request.t → Exn + Response) (st : State) :
  Component.showCalendar (onSelect VUndefined st).2 = false
  ∧ date (Component.form (onSelect VUndefined st).2) = VUndefined
  ∧ (validate (Component.form (onSelect VUndefined st).2)).2 !! "date"%string
    = Some (mkFieldError (invalid_type zt_undefined))
  ∧ Component.trace
      (handleSubmit (onSubmit createTransaction) (onSelect VUndefined st).2).2
    = Component.trace st.
Proof.
  unfold onSelect. unfold_M. cbn [snd Component.showCalendar Component.form].
  split; [done|]. split; [done|].
  assert (errors (zodResolver (set n_date VUndefined (Component.form st)))
          !! "date"%string
          = Some (mkFieldError (invalid_type zt_undefined))) as Hl.
  { by rewrite (zodResolver_lookup n_date). }
  split; [done|].
  pose proof (zodResolver_values
                (set n_date VUndefined (Component.form st))) as H.
  destruct (values (zodResolver (set n_date VUndefined (Component.form st))))
    as [v|] eqn:Hv.
  - destruct H as [_ He]. by rewrite He in Hl.
  - by rewrite handleSubmit_invalid.
Qed.

(** ** Parsing what was parsed *)

Lemma min1_string_nonempty (s : string) :
  s ≠ ""%string → z.min 1 z.string (VString s) = OK s.
Proof. by destruct s. Qed.

(** X20.  Values that satisfy the constraints of the schema survive a
    round trip: turned into a request, read back as form values and
    validated again, they parse to themselves. *)
Theorem valid_request_reparses (v : Parsed.t) :
  well_formed v → formSchema (of_request (toRequest v)) = inl v.
Proof.
  intros (Ha & Hty & Hde & Hc & Ham). destruct v as [a ty de c da am no].
  cbn in Ha, Hty, Hde, Hc, Ham. unfold formSchema, of_request, toRequest.
  cbn [account type description category date amount notes
       Request.UserAccountId Request.type Request.description
       Request.category Request.date Request.amount Request.notes
       Parsed.account Parsed.type Parsed.description Parsed.category
       Parsed.date Parsed.amount Parsed.notes].
  unfold s_account, s_description, s_category.
  rewrite !min1_string_nonempty by done.
  assert (s_type (VString ty) = OK ty) as ->.
  { unfold s_type. by destruct Hty as [<-|[<-|[]]]. }
  assert (s_amount (VNumber am) = OK am) as ->.
  { unfold s_amount, z.positive, z.number.
    rewrite (num_gt_not_NaN _ _ Ham).
    by rewrite (num_le_zero_gt _ (num_gt_not_NaN _ _ Ham)), Ham. }
  by destruct no.
Qed.

Lemma valid_request_reparses_witness :
  well_formed coffee_values
  ∧ formSchema (of_request (toRequest coffee_values)) = inl coffee_values.
Proof.
  assert (well_formed coffee_values) as Hw.
  { repeat split; try discriminate. by left. }
  split; [exact Hw|]. apply (valid_request_reparses coffee_values Hw).
Defined.

(** X21.  After the accounts have been fetched, the items of the account
    select are those accounts in the order they came, and the account
    preselected in the form, unless it is empty, is the value of one of
    the items. *)
Theorem preselected_account_is_an_item
    (getAll : string → Exn + list Account) (userId : string)
    (fetched : list Account) (st : State) :
  truthy_string userId = true →
  getAll userId = inr fetched →
  accountItems (accountsEffect getAll (Some userId) st).2
  = map (λ a, (id a, name a)) fetched
  ∧ ∃ s,
      account (Component.form (accountsEffect getAll (Some userId) st).2)
      = VString s
      ∧ (s = ""%string
         ∨ In s (map fst
                   (accountItems (accountsEffect getAll (Some userId) st).2))).
Proof.
  intros Hu Hget. rewrite (accountsEffect_fetched _ _ _ _ Hu Hget).
  unfold accountItems; cbn. split; [done|]. eexists. split; [done|].
  destruct (find isDefault fetched) as [a|] eqn:Hf; [|by left].
  right. apply find_some in Hf as [Hin _]. rewrite map_map. cbn.
  apply in_map_iff. by exists a.
Qed.

Lemma preselected_account_is_an_item_witness :
  truthy_string "u1" = true
  ∧ accounts_found "u1"%string = inr [cash; bank; card]
  ∧ accountItems
      (accountsEffect accounts_found (Some "u1"%string) (mount 0 None)).2
    = [("a1", "Cash"); ("a2", "Bank"); ("a3", "Card")]%string.
Proof.
  split; [reflexivity|]. split; [reflexivity|].
  apply (proj1 (preselected_account_is_an_item accounts_found "u1"%string
                  [cash; bank; card] (mount 0 None) eq_refl eq_refl)).
Defined.
